(** * rhn_rpm: locating RPM header regions, signature key ids, NVRE comparison

    A shallow embedding of [katello_certs_tools/rhn_rpm.py] and the
    properties its specification states about it.

    Conventions of the embedding.
    - Python integers are unbounded: they are [Z], without wrap-around.
    - A byte string ([bytes]) is a [list byte].
    - A Python call either returns or raises: [result A].
    - A file object is a content and a read cursor; calls on it are written in
      the state-and-exception monad [fileM], where the state reached when an
      exception is raised is kept (Python does not roll a file object back).
    - The semantics is that of Python 3, the interpreter the module's
      [.decode('utf-8')] calls on header values are written for. *)

From Stdlib Require Import ZArith Lia String Ascii.
From Stdlib Require Init.Byte Strings.Byte Strings.HexString.
From stdpp Require Import base list gmap strings pretty.

Local Open Scope Z_scope.

Abbreviation byte := Init.Byte.byte.

(** ** Python values and exceptions *)

Inductive exn : Type :=
| StructError
| TypeError
| AttributeError
| KeyError
| IndexError
| UnicodeDecodeError
| ValueError (msg : string).

Inductive result (A : Type) : Type :=
| Ok (a : A)
| Raise (e : exn).
Arguments Ok {A} a.
Arguments Raise {A} e.

#[global] Instance result_ret : MRet result := fun A a => Ok a.

#[global] Instance result_bind : MBind result := fun A B k r =>
  match r with
  | Ok a => k a
  | Raise e => Raise e
  end.

(** The unsigned value of a byte. *)
Definition byte_val (b : byte) : Z := Z.of_N (Byte.to_N b).

(** ** The byte source: a binary file object *)

Record file : Type := mkfile {
  content : list byte;
  pos : nat
}.

Definition fileM (A : Type) : Type := file → result A * file.

#[global] Instance file_ret : MRet fileM := fun A a f => (Ok a, f).

#[global] Instance file_bind : MBind fileM := fun A B k m f =>
  match m f with
  | (Ok a, f') => k a f'
  | (Raise e, f') => (Raise e, f')
  end.

(** A call that does not touch the file. *)
Definition flift {A} (r : result A) : fileM A := fun f => (r, f).

(** [package_file.seek(offset)]: an absolute seek. Seeking past the end of a
    file is allowed. *)
Definition seek_set (offset : Z) : fileM unit :=
  fun f => (Ok tt, mkfile (content f) (Z.to_nat offset)).

(** [package_file.seek(offset, 1)]: a seek relative to the cursor. *)
Definition seek_cur (offset : Z) : fileM unit :=
  fun f => (Ok tt, mkfile (content f) (Z.to_nat (Z.of_nat (pos f) + offset))).

(** [package_file.read(n)]: at most [n] bytes from the cursor, fewer at the
    end of the file; the cursor moves past what was read. *)
Definition read (n : nat) : fileM (list byte) :=
  fun f =>
    let got := take n (drop (pos f) (content f)) in
    (Ok got, mkfile (content f) (pos f + length got)).

(** [struct.unpack('>I', data)]: exactly four bytes, most significant first;
    any other length raises [struct.error]. The value is accumulated as
    CPython does, one shift and one or per byte. *)
Definition unpack_be (data : list byte) : Z :=
  foldl (fun x b => Z.lor (Z.shiftl x 8) (byte_val b)) 0 data.

Definition struct_unpack_I (data : list byte) : result Z :=
  if decide (length data = 4%nat) then Ok (unpack_be data) else Raise StructError.

(** ** get_header_struct_size and get_header_byte_range *)

Definition get_header_struct_size : fileM Z :=
  seek_cur 8 ;;
  header_index ← read 4 ;
  header_index_value ← flift (struct_unpack_I header_index) ;
  header_store ← read 4 ;
  header_store_value ← flift (struct_unpack_I header_store) ;
  let header_size := 8 + 4 + 4 + header_index_value * 16 + header_store_value in
  let round_out := header_size `mod` 8 in
  mret (if decide (round_out ≠ 0)
        then header_size + (8 - round_out)
        else header_size).

Definition lead_size : Z := 96.

Definition get_header_byte_range : fileM (Z * Z) :=
  seek_set lead_size ;;
  sig_size ← get_header_struct_size ;
  let header_start := lead_size + sig_size in
  seek_set header_start ;;
  header_size ← get_header_struct_size ;
  let header_end := header_start + header_size in
  mret (header_start, header_end).

(** ** The specification's reading of the header preamble *)

(** A big-endian unsigned integer, by positional value. *)
Fixpoint be_uint (bs : list byte) : Z :=
  match bs with
  | [] => 0
  | b :: bs' => byte_val b * 256 ^ Z.of_nat (length bs') + be_uint bs'
  end.

(** The [n]-byte field at byte offset [off], when the source has it whole. *)
Definition field (data : list byte) (off n : nat) : option (list byte) :=
  let bs := take n (drop off data) in
  if decide (length bs = n) then Some bs else None.

(** [raw = 16 + index_count*16 + store_bytes]. *)
Definition raw_size (index_count store_bytes : Z) : Z :=
  16 + index_count * 16 + store_bytes.

(** The next multiple of 8, the number itself when it is one. *)
Definition round_up8 (n : Z) : Z := 8 * ((n + 7) / 8).

(** [HeaderStructSizer.compute_size(source, position)]. *)
Definition compute_size (data : list byte) (position : Z) : result Z :=
  let p := Z.to_nat position in
  match field data (p + 8) 4, field data (p + 12) 4 with
  | Some ic, Some sb => Ok (round_up8 (raw_size (be_uint ic) (be_uint sb)))
  | _, _ => Raise StructError
  end.


(** ** Values of a decoded header *)

(** The Python values the module handles: [None], an integer, a byte string
    and a text string. *)
Inductive pyval : Type :=
| PyNone
| PyInt (z : Z)
| PyBytes (b : list byte)
| PyStr (s : string).

#[global] Instance byte_eq_dec : EqDecision byte := Byte.byte_eq_dec.

#[global] Instance pyval_eq_dec : EqDecision pyval.
Proof. solve_decision. Defined.

(** Truth value of an object in a condition. *)
Definition py_truthy (v : pyval) : bool :=
  match v with
  | PyNone => false
  | PyInt z => bool_decide (z ≠ 0)
  | PyBytes b => bool_decide (b ≠ [])
  | PyStr s => bool_decide (s ≠ EmptyString)
  end.

(** A text string is held in its UTF-8 encoding. One character is a byte
    that is not a continuation byte [10xxxxxx], together with the continuation
    bytes that follow it. *)
Definition utf8_continuation (c : ascii) : bool :=
  bool_decide (128 ≤ N_of_ascii c < 192)%N.

(** The number of characters of a text. *)
Fixpoint utf8_length (s : string) : nat :=
  match s with
  | EmptyString => 0%nat
  | String c s' =>
      ((if utf8_continuation c then 0 else 1) + utf8_length s')%nat
  end.

(** The continuation bytes a text starts with, and the text after them. *)
Fixpoint utf8_cont (s : string) : string :=
  match s with
  | EmptyString => EmptyString
  | String c s' => if utf8_continuation c then String c (utf8_cont s') else EmptyString
  end.

Fixpoint utf8_skip (s : string) : string :=
  match s with
  | EmptyString => EmptyString
  | String c s' => if utf8_continuation c then utf8_skip s' else s
  end.

(** A text without its first [n] characters, and its first [n] characters. *)
Fixpoint utf8_drop (n : nat) (s : string) : string :=
  match n, s with
  | O, _ => s
  | S _, EmptyString => EmptyString
  | S n', String _ s' => utf8_drop n' (utf8_skip s')
  end.

Fixpoint utf8_take (n : nat) (s : string) : string :=
  match n, s with
  | O, _ => EmptyString
  | S _, EmptyString => EmptyString
  | S n', String c s' => String c (utf8_cont s' +:+ utf8_take n' (utf8_skip s'))
  end.

(** [len(v)]: the bytes of a byte string, the characters of a text. *)
Definition py_len (v : pyval) : result Z :=
  match v with
  | PyBytes b => Ok (Z.of_nat (length b))
  | PyStr s => Ok (Z.of_nat (utf8_length s))
  | PyNone | PyInt _ => Raise TypeError
  end.

(** [v[i:j]] for constants [0 <= i <= j], by bytes in a byte string and by
    characters in a text: the slice is cut at the end of the sequence. *)
Definition py_slice (v : pyval) (i j : nat) : result pyval :=
  match v with
  | PyBytes b => Ok (PyBytes (take (j - i) (drop i b)))
  | PyStr s => Ok (PyStr (utf8_take (j - i) (utf8_drop i s)))
  | PyNone | PyInt _ => Raise TypeError
  end.

(** [struct.unpack("%dB" % n, v)]: [n] unsigned bytes. The buffer has to be a
    byte string of exactly [n] bytes. *)
Definition struct_unpack_B (n : Z) (v : pyval) : result (list Z) :=
  match v with
  | PyBytes b =>
      if decide (Z.of_nat (length b) = n) then Ok (byte_val <$> b)
      else Raise StructError
  | PyNone | PyInt _ | PyStr _ => Raise TypeError
  end.

(** ["%02x" % z]: lowercase hexadecimal, padded with a zero to two
    characters. *)
Definition fmt_02x (z : Z) : string :=
  match z with
  | Z0 => "00"
  | Zpos p =>
      let s := HexString.Raw.of_pos p "" in
      if decide (String.length s < 2)%nat then String "0" s else s
  | Zneg p => String "-" (HexString.Raw.of_pos p "")
  end.

(** [("%02x" * n) % t]: one conversion per element of the tuple; a tuple of
    another length is a [TypeError]. *)
Definition fmt_02x_times (n : Z) (t : list Z) : result string :=
  if decide (Z.of_nat (length t) = n)
  then Ok (foldr (fun z acc => fmt_02x z +:+ acc) EmptyString t)
  else Raise TypeError.

(** ** The rpm module *)

(** Tag numbers of rpm's [rpmtag.h]. *)
Definition RPMTAG_SIGPGP : Z := 259.
Definition RPMTAG_SIGGPG : Z := 262.
Definition RPMTAG_DSAHEADER : Z := 267.
Definition RPMTAG_RSAHEADER : Z := 268.
(** Set by the module itself. *)
Definition RPMTAG_FILEDIGESTALGO : Z := 5011.

(** The tag names under which the module reads a header by name. *)
Definition tag_of_name (name : string) : option Z :=
  if decide (name = "sigpgp") then Some RPMTAG_SIGPGP
  else if decide (name = "siggpg") then Some RPMTAG_SIGGPG
  else if decide (name = "dsaheader") then Some RPMTAG_DSAHEADER
  else None.

Inductive hdr_key : Type :=
| Tag (t : Z)
| Name (s : string).

(** [hdr[key]] on rpm's header object: the value of the tag, [None] when the
    header does not carry it. *)
Definition hdr_getitem (h : gmap Z pyval) (k : hdr_key) : result pyval :=
  match k with
  | Tag t => Ok (default PyNone (h !! t))
  | Name s =>
      match tag_of_name s with
      | Some t => Ok (default PyNone (h !! t))
      | None => Raise KeyError
      end
  end.

Definition PGPHASHALGO : gmap Z string :=
  {[ 1 := "md5"; 2 := "sha1"; 3 := "ripemd160"; 5 := "md2"; 6 := "tiger192";
     7 := "haval-5-160"; 8 := "sha256"; 9 := "sha384"; 10 := "sha512" ]}%string.

(** [v in PGPHASHALGO]: the keys are integers, so no other value is among
    them. *)
Definition in_PGPHASHALGO (v : pyval) : bool :=
  match v with
  | PyInt z => bool_decide (is_Some (PGPHASHALGO !! z))
  | PyNone | PyBytes _ | PyStr _ => false
  end.

(** [PGPHASHALGO[v]]. *)
Definition PGPHASHALGO_getitem (v : pyval) : result string :=
  match v with
  | PyInt z =>
      match PGPHASHALGO !! z with
      | Some s => Ok s
      | None => Raise KeyError
      end
  | PyNone | PyBytes _ | PyStr _ => Raise KeyError
  end.

(** A sequence object: a list, or the lazy iterator that [map] returns, which
    cannot be indexed. *)
Inductive pyseq : Type :=
| PyList (xs : list pyval)
| PyMap (xs : list pyval).

(** [map(str, xs)]: nothing is converted before the iterator is consumed. *)
Definition py_map_str (xs : list pyval) : pyseq := PyMap xs.

(** [s[i]]. *)
Definition seq_getitem (s : pyseq) (i : nat) : result pyval :=
  match s with
  | PyList xs =>
      match xs !! i with
      | Some x => Ok x
      | None => Raise IndexError
      end
  | PyMap _ => Raise TypeError
  end.

(** [s[i] = v]. *)
Definition seq_setitem (s : pyseq) (i : nat) (v : pyval) : result pyseq :=
  match s with
  | PyList xs =>
      if decide (i < length xs)%nat then Ok (PyList (<[i := v]> xs))
      else Raise IndexError
  | PyMap _ => Raise TypeError
  end.

(** [t[i]] on a tuple. *)
Definition tuple_getitem (t : list pyval) (i : nat) : result pyval :=
  match t !! i with
  | Some x => Ok x
  | None => Raise IndexError
  end.

(** A [for] loop whose body may raise, over the state [S]. *)
Fixpoint py_for {S X : Type} (body : S → X → result S) (xs : list X) (s : S)
  : result S :=
  match xs with
  | [] => Ok s
  | x :: xs' => s' ← body s x; py_for body xs' s'
  end.

(** ** RPM_Header *)

(** One entry of [RPM_Header.signatures]. *)
Record signature_record : Type := mksig {
  signature_type : string;
  key_id : string;
  signature : pyval
}.

Record RPM_Header : Type := mkhdr {
  hdr : gmap Z pyval;
  is_source : pyval;
  packaging : string;
  signatures : list signature_record
}.

Section Rpm.

(** Whether the rpm module in use defines [RPMTAG_DSAHEADER] (old releases
    do not). *)
Variable rpm_has_RPMTAG_DSAHEADER : bool.

(** [rpm.labelCompare], the comparison of two (epoch, version, release)
    sequences by the rpm library. *)
Variable rpm_labelCompare : pyseq → pyseq → result Z.

(** The UTF-8 codec: the text a byte string decodes to, if it is valid. *)
Variable utf8_decode : list byte → option string.

(** [rpm.RPMTAG_DSAHEADER]. *)
Definition rpm_RPMTAG_DSAHEADER : result Z :=
  if rpm_has_RPMTAG_DSAHEADER then Ok RPMTAG_DSAHEADER else Raise AttributeError.

(** [v.decode('utf-8')]: only a byte string has the method. *)
Definition py_decode (v : pyval) : result pyval :=
  match v with
  | PyBytes b =>
      match utf8_decode b with
      | Some s => Ok (PyStr s)
      | None => Raise UnicodeDecodeError
      end
  | PyNone | PyInt _ | PyStr _ => Raise AttributeError
  end.

Definition checksum_type (self : RPM_Header) : result string :=
  v ← hdr_getitem (hdr self) (Tag RPMTAG_FILEDIGESTALGO);
  known ←
    (if py_truthy v
     then v' ← hdr_getitem (hdr self) (Tag RPMTAG_FILEDIGESTALGO);
          d ← py_decode v';
          mret (in_PGPHASHALGO d)
     else mret false);
  if known : bool
  then k ← hdr_getitem (hdr self) (Tag RPMTAG_FILEDIGESTALGO);
       PGPHASHALGO_getitem k
  else mret "md5"%string.

Definition is_signed (self : RPM_Header) : result Z :=
  dsaheader ←
    (if rpm_has_RPMTAG_DSAHEADER
     then hdr_getitem (hdr self) (Name "dsaheader")
     else mret (PyInt 0));
  siggpg ← hdr_getitem (hdr self) (Name "siggpg");
  if py_truthy siggpg then mret 1
  else
    sigpgp ← hdr_getitem (hdr self) (Name "sigpgp");
    if py_truthy sigpgp then mret 1
    else if py_truthy dsaheader then mret 1
    else mret 0.

(** The body of the loop of [_extract_signatures]; [continue] leaves the
    object as it is. *)
Definition extract_signature (self : RPM_Header) (entry : Z * string)
  : result RPM_Header :=
  let '(ht, sig_type) := entry in
  ret ← hdr_getitem (hdr self) (Tag ht);
  if negb (py_truthy ret) then mret self
  else
    ret_len ← py_len ret;
    if decide (ret_len < 17) then mret self
    else
      key_id ←
        (if decide (ret_len ≤ 65) then py_slice ret 9 17
         else if decide (ret_len ≤ 72) then py_slice ret 18 26
         else if decide (ret_len ≤ 536) then py_slice ret 10 18
         else py_slice ret 19 27);
      key_id_len ← py_len key_id;
      t ← struct_unpack_B key_id_len key_id;
      key_id ← fmt_02x_times key_id_len t;
      mret (mkhdr (hdr self) (is_source self) (packaging self)
              (signatures self ++
               [mksig sig_type key_id ret])).

Definition _extract_signatures (self : RPM_Header) : result RPM_Header :=
  dsa ← rpm_RPMTAG_DSAHEADER;
  let header_tags :=
    [ (dsa, "dsa"); (RPMTAG_RSAHEADER, "rsa");
      (RPMTAG_SIGGPG, "gpg"); (RPMTAG_SIGPGP, "pgp") ]%string in
  py_for extract_signature header_tags self.

(** [RPM_Header(hdr, is_source)]. *)
Definition RPM_Header_init (h : gmap Z pyval) (is_src : pyval)
  : result RPM_Header :=
  _extract_signatures (mkhdr h is_src "rpm" []).

(** ** nvre_compare *)

Definition build_evr (p : list pyval) : result pyseq :=
  e ← tuple_getitem p 3;
  v ← tuple_getitem p 1;
  r ← tuple_getitem p 2;
  let evr := [e; v; r] in
  let evr := py_map_str evr in
  evr0 ← seq_getitem evr 0;
  evr ← (if decide (evr0 = PyStr "") then seq_setitem evr 0 PyNone else mret evr);
  mret evr.

Definition nvre_compare (t1 t2 : list pyval) : result Z :=
  n1 ← tuple_getitem t1 0;
  n2 ← tuple_getitem t2 0;
  if decide (n1 ≠ n2)
  then Raise (ValueError "You should only compare packages with the same name")
  else
    evr1 ← build_evr t1;
    evr2 ← build_evr t2;
    rpm_labelCompare evr1 evr2.

End Rpm.

(** ** The specification's reading of the locator and of the signatures *)

(** The signature header region: it starts after the lead and has the size
    computed at offset 96. *)
Definition signature_location (data : list byte) : result (Z * Z) :=
  sig_size ← compute_size data 96;
  mret (96, 96 + sig_size).

(** The key-id slice [(start, end)], end exclusive, for a raw value of length
    [L]; the first matching condition wins. *)
Definition key_id_slice (L : nat) : nat * nat :=
  if decide (L ≤ 65)%nat then (9, 17)%nat
  else if decide (L ≤ 72)%nat then (18, 26)%nat
  else if decide (L ≤ 536)%nat then (10, 18)%nat
  else (19, 27)%nat.

(** The bytes at the positions [lo], ..., [hi - 1] that the value has. *)
Definition bytes_at (raw : list byte) (lo hi : nat) : list byte :=
  omap (fun i => raw !! i) (seq lo (hi - lo)).

Definition hex_digit (n : Z) : ascii :=
  default "?"%char (list_ascii_of_string "0123456789abcdef" !! Z.to_nat n).

(** Lowercase hexadecimal, two digits per byte, no separator. *)
Fixpoint hex_of_bytes (bs : list byte) : string :=
  match bs with
  | [] => EmptyString
  | b :: bs' =>
      String (hex_digit (byte_val b / 16))
        (String (hex_digit (byte_val b `mod` 16)) (hex_of_bytes bs'))
  end.

(** The record of one signature kind: none for an absent, empty or too short
    raw value. *)
Definition signature_of (kind : string) (raw : option (list byte))
  : option signature_record :=
  match raw with
  | None => None
  | Some b =>
      if decide (17 ≤ length b)%nat
      then let '(lo, hi) := key_id_slice (length b) in
           Some (mksig kind (hex_of_bytes (bytes_at b lo hi)) (PyBytes b))
      else None
  end.

(** The records in the fixed order of kinds. *)
Definition signatures_of (dsa rsa gpg pgp : option (list byte))
  : list signature_record :=
  omap id [ signature_of "dsa" dsa; signature_of "rsa" rsa;
            signature_of "gpg" gpg; signature_of "pgp" pgp ].

(** The raw value of a binary tag: absent, or a byte string. *)
Definition raw_value (h : gmap Z pyval) (tag : Z) (raw : option (list byte)) : Prop :=
  h !! tag = PyBytes <$> raw.

(** Present and non-empty. *)
Definition nonempty (raw : option (list byte)) : Prop :=
  ∃ b, raw = Some b ∧ b ≠ [].

Definition is_lower_hex (c : ascii) : bool :=
  bool_decide (c ∈ list_ascii_of_string "0123456789abcdef").

Definition lower_hex_string (s : string) : Prop :=
  Forall (fun c => is_lower_hex c = true) (list_ascii_of_string s).

(** The object after [self.signatures.append(r)], or unchanged when there is
    no record to append. *)
Definition with_signature (self : RPM_Header) (r : option signature_record)
  : RPM_Header :=
  mkhdr (hdr self) (is_source self) (packaging self)
        (signatures self ++ option_list r).

(** The arithmetic that [get_header_struct_size] applies to the two decoded
    values, as a function of them. *)
Definition header_size_of (header_index_value header_store_value : Z) : Z :=
  let header_size := 8 + 4 + 4 + header_index_value * 16 + header_store_value in
  let round_out := header_size `mod` 8 in
  if decide (round_out ≠ 0) then header_size + (8 - round_out) else header_size.

(** ** Sample inputs *)

(** A preamble with one index entry and nine bytes of store. *)
Definition sample_preamble : file :=
  mkfile (replicate 8 Byte.x00 ++
          [Byte.x00; Byte.x00; Byte.x00; Byte.x01;
           Byte.x00; Byte.x00; Byte.x00; Byte.x09]) 0.

(** Seventeen bytes [00 01 ... 10]. *)
Definition sample_raw17 : list byte :=
  [Byte.x00; Byte.x01; Byte.x02; Byte.x03; Byte.x04; Byte.x05; Byte.x06;
   Byte.x07; Byte.x08; Byte.x09; Byte.x0a; Byte.x0b; Byte.x0c; Byte.x0d;
   Byte.x0e; Byte.x0f; Byte.x10].

(** A header whose only signature tag is the RSA one. *)
Definition rsa_only_hdr : gmap Z pyval :=
  {[ RPMTAG_RSAHEADER := PyBytes sample_raw17 ]}.

Definition rsa_only_header : RPM_Header :=
  mkhdr rsa_only_hdr PyNone "rpm"
        [mksig "rsa" "090a0b0c0d0e0f10" (PyBytes sample_raw17)].

(** A header with a DSA and a PGP signature. *)
Definition dsa_pgp_hdr : gmap Z pyval :=
  {[ RPMTAG_DSAHEADER := PyBytes sample_raw17;
     RPMTAG_SIGPGP := PyBytes (replicate 66 Byte.xab) ]}.

Definition dsa_pgp_header : RPM_Header :=
  mkhdr dsa_pgp_hdr PyNone "rpm"
        [mksig "dsa" "090a0b0c0d0e0f10" (PyBytes sample_raw17);
         mksig "pgp" "abababababababab" (PyBytes (replicate 66 Byte.xab))].

(** A header whose file digest algorithm is 8, SHA256. *)
Definition sha256_header : RPM_Header :=
  mkhdr {[ RPMTAG_FILEDIGESTALGO := PyInt 8 ]} PyNone "rpm" [].

(** (name, version, release, epoch). *)
Definition foo_1_0 : list pyval := [PyStr "foo"; PyStr "1.0"; PyStr "1"; PyStr ""].
Definition bar_1_0 : list pyval := [PyStr "bar"; PyStr "1.0"; PyStr "1"; PyStr ""].


(** ** hdrLabelCompare *)

(** More tag numbers of rpm's [rpmtag.h]: the tags that the keys ['name'],
    ['version'], ['release'] and ['epoch'] name. *)
Definition RPMTAG_NAME : Z := 1000.
Definition RPMTAG_VERSION : Z := 1001.
Definition RPMTAG_RELEASE : Z := 1002.
Definition RPMTAG_EPOCH : Z := 1003.

(** [RPM_Header.__getitem__]: the lookup is the header's. *)
Definition RPM_Header_getitem (self : RPM_Header) (name : hdr_key) : result pyval :=
  hdr_getitem (hdr self) name.

(** Lexicographic order of byte strings, by unsigned byte value; a proper
    prefix comes first. *)
Fixpoint bytes_lt (a b : list byte) : bool :=
  match a, b with
  | _, [] => false
  | [], _ :: _ => true
  | x :: a', y :: b' =>
      if decide (byte_val x < byte_val y) then true
      else if decide (byte_val y < byte_val x) then false
      else bytes_lt a' b'
  end.

(** [v < w]: defined between two integers, two byte strings and two text
    strings (held in UTF-8, whose byte order is the order of the code
    points); a [TypeError] otherwise. *)
Definition py_lt (v w : pyval) : result bool :=
  match v, w with
  | PyInt x, PyInt y => Ok (bool_decide (x < y))
  | PyBytes a, PyBytes b => Ok (bytes_lt a b)
  | PyStr s, PyStr t => Ok (bytes_lt (list_byte_of_string s) (list_byte_of_string t))
  | _, _ => Raise TypeError
  end.

Section LabelCompare.

(** [rpm.labelCompare], as for [nvre_compare]. *)
Variable rpm_labelCompare : pyseq → pyseq → result Z.

(** The UTF-8 codec, as for [checksum_type]. *)
Variable utf8_decode : list byte → option string.

(** [repr] of a byte string, the text [b'...'] with its escapes. *)
Variable bytes_repr : list byte → string.

(** [str(v)]. *)
Definition py_str (v : pyval) : string :=
  match v with
  | PyNone => "None"
  | PyInt z => pretty z
  | PyBytes b => bytes_repr b
  | PyStr s => s
  end.

(** [[hdr['epoch'], hdr['version'].decode('utf-8'),
      hdr['release'].decode('utf-8')]]. *)
Definition label_of (h : RPM_Header) : result pyseq :=
  e ← RPM_Header_getitem h (Tag RPMTAG_EPOCH);
  v ← RPM_Header_getitem h (Tag RPMTAG_VERSION);
  v ← py_decode utf8_decode v;
  r ← RPM_Header_getitem h (Tag RPMTAG_RELEASE);
  r ← py_decode utf8_decode r;
  mret (PyList [e; v; r]).

(** [if l[0]: l[0] = str(l[0])]. *)
Definition stringify_epoch (l : pyseq) : result pyseq :=
  e ← seq_getitem l 0;
  if py_truthy e
  then e ← seq_getitem l 0; seq_setitem l 0 (PyStr (py_str e))
  else mret l.

(** The two arguments are read under the keys ['name'], ['epoch'],
    ['version'] and ['release'], given here by the tags they name. *)
Definition hdrLabelCompare (hdr1 hdr2 : RPM_Header) : result Z :=
  n1 ← RPM_Header_getitem hdr1 (Tag RPMTAG_NAME);
  n2 ← RPM_Header_getitem hdr2 (Tag RPMTAG_NAME);
  if decide (n1 = n2)
  then
    l1 ← label_of hdr1;
    l2 ← label_of hdr2;
    l1 ← stringify_epoch l1;
    l2 ← stringify_epoch l2;
    rpm_labelCompare l1 l2
  else
    n1 ← RPM_Header_getitem hdr1 (Tag RPMTAG_NAME);
    n2 ← RPM_Header_getitem hdr2 (Tag RPMTAG_NAME);
    lt ← py_lt n1 n2;
    if lt : bool then mret (-1) else mret 1.

End LabelCompare.

(** ** Readings used by the further properties *)

(** The value a header has for a tag, [None] when it has none. *)
Definition tag_value (h : gmap Z pyval) (tag : Z) : pyval :=
  default PyNone (h !! tag).

(** What one signature tag contributes, by its value: nothing, a record, or
    the [TypeError] of [len] or [struct.unpack] on a value that is not a byte
    string (a text of fewer than 17 characters is skipped like a short byte
    string). *)
Definition record_of_value (kind : string) (v : pyval)
  : result (option signature_record) :=
  match v with
  | PyNone => Ok None
  | PyInt z => if decide (z = 0) then Ok None else Raise TypeError
  | PyStr s => if decide (utf8_length s < 17)%nat then Ok None else Raise TypeError
  | PyBytes b => Ok (signature_of kind (Some b))
  end.

(** The signature kinds with their tags, in the order of the loop. *)
Definition signature_tags : list (string * Z) :=
  [ ("dsa", RPMTAG_DSAHEADER); ("rsa", RPMTAG_RSAHEADER);
    ("gpg", RPMTAG_SIGGPG); ("pgp", RPMTAG_SIGPGP) ]%string.

(** A record that agrees with the header it was extracted from: the header
    holds, under the tag of the record's kind, the byte string of at least 17
    bytes that the record carries, and the key id renders the slice selected
    by its length. *)
Definition record_of_header (h : gmap Z pyval) (r : signature_record) : Prop :=
  ∃ tag b,
    (signature_type r, tag) ∈ signature_tags ∧
    h !! tag = Some (PyBytes b) ∧
    signature r = PyBytes b ∧
    (17 ≤ length b)%nat ∧
    key_id r = hex_of_bytes (bytes_at b (key_id_slice (length b)).1
                                        (key_id_slice (length b)).2).

(** The epoch as [hdrLabelCompare] hands it to rpm: a missing epoch as
    [None], the epoch 0 as the integer 0, any other epoch as its decimal
    text. *)
Definition epoch_argument (epoch : option Z) : pyval :=
  match epoch with
  | None => PyNone
  | Some 0 => PyInt 0
  | Some n => PyStr (pretty n)
  end.

(** The epoch tag of a header: absent, or an integer. *)
Definition epoch_value (h : gmap Z pyval) (epoch : option Z) : Prop :=
  h !! RPMTAG_EPOCH = PyInt <$> epoch.

(** A lead of 96 zero bytes, a signature header without entries and a main
    header preamble announcing one entry and nine bytes of store; the file
    ends after the preamble. *)
Definition sample_package : file :=
  mkfile (replicate 96 Byte.x00 ++
          replicate 8 Byte.x00 ++ replicate 8 Byte.x00 ++
          content sample_preamble) 0.

(** The preamble of [sample_preamble] behind eight other opaque bytes. *)
Definition sample_preamble_magic : file :=
  mkfile (replicate 8 Byte.xff ++
          [Byte.x00; Byte.x00; Byte.x00; Byte.x01;
           Byte.x00; Byte.x00; Byte.x00; Byte.x09]) 0.

(** Two headers of packages named [a] and [b]. *)
Definition pkg_a : RPM_Header :=
  mkhdr {[ RPMTAG_NAME := PyBytes [Byte.x61] ]} PyNone "rpm" [].
Definition pkg_b : RPM_Header :=
  mkhdr {[ RPMTAG_NAME := PyBytes [Byte.x62];
           RPMTAG_VERSION := PyBytes [Byte.x31];
           RPMTAG_RELEASE := PyBytes [Byte.x32];
           RPMTAG_EPOCH := PyInt 0 ]} PyNone "rpm" [].
(** [b-1-2] with epoch 3. *)
Definition pkg_b3 : RPM_Header :=
  mkhdr {[ RPMTAG_NAME := PyBytes [Byte.x62];
           RPMTAG_VERSION := PyBytes [Byte.x31];
           RPMTAG_RELEASE := PyBytes [Byte.x32];
           RPMTAG_EPOCH := PyInt 3 ]} PyNone "rpm" [].

(** A codec for the samples: ASCII text decodes to itself. *)
Definition ascii_decode (b : list byte) : option string :=
  if forallb (fun x => bool_decide (byte_val x < 128)) b
  then Some (string_of_list_byte b) else None.

(** Two preambles, one after the other. *)
Definition two_preambles : file :=
  mkfile (content sample_preamble ++ content sample_preamble) 0.

(** Nine times the letter e with an acute accent: 9 characters, 18 bytes. *)
Definition nine_e_acute : string :=
  string_of_list_byte (concat (replicate 9 [Byte.xc3; Byte.xa9])).

(** A header with a DSA signature and a short text under the RSA tag. *)
Definition dsa_text_hdr : gmap Z pyval :=
  {[ RPMTAG_DSAHEADER := PyBytes sample_raw17;
     RPMTAG_RSAHEADER := PyStr nine_e_acute ]}.

(** A preamble whose two fields are the largest a field can hold. *)
Definition largest_preamble : file := mkfile (replicate 16 Byte.xff) 0.
(** ** Bytes and big-endian decoding *)

Lemma byte_val_range (b : byte) : 0 ≤ byte_val b < 256.
Proof.
  unfold byte_val. pose proof (Byte.to_N_bounded b). lia.
Qed.

Lemma lor_shiftl_byte (x : Z) (b : byte) :
  0 ≤ x → Z.lor (Z.shiftl x 8) (byte_val b) = x * 256 + byte_val b.
Proof.
  intros Hx. pose proof (byte_val_range b) as Hb.
  rewrite Z.shiftl_mul_pow2 by lia. change (2 ^ 8) with 256.
  rewrite <- Z.lxor_lor, <- Z.add_nocarry_lxor; try reflexivity.
  all: apply Z.bits_inj'; intros n Hn; rewrite Z.land_spec, Z.bits_0.
  all: destruct (decide (n < 8)) as [Hlt|Hge].
  all: try (change 256 with (2 ^ 8); rewrite Z.mul_pow2_bits_low by lia; reflexivity).
  all: rewrite (Z.bits_above_log2 (byte_val b) n), andb_false_r; try lia; try reflexivity.
  all: destruct (decide (byte_val b = 0)) as [->|Hnz]; [simpl; lia|].
  all: apply Z.log2_lt_pow2; try lia.
  all: apply Z.lt_le_trans with (2 ^ 8); [change (2 ^ 8) with 256; lia|].
  all: apply Z.pow_le_mono_r; lia.
Qed.

Lemma be_uint_range (bs : list byte) :
  0 ≤ be_uint bs < 256 ^ Z.of_nat (length bs).
Proof.
  induction bs as [|b bs IH]; simpl be_uint; simpl length.
  - simpl. lia.
  - pose proof (byte_val_range b) as Hb.
    rewrite Nat2Z.inj_succ, Z.pow_succ_r by lia.
    assert (0 < 256 ^ Z.of_nat (length bs)) by (apply Z.pow_pos_nonneg; lia).
    nia.
Qed.

Lemma unpack_be_acc (bs : list byte) (acc : Z) :
  0 ≤ acc →
  foldl (fun x b => Z.lor (Z.shiftl x 8) (byte_val b)) acc bs
  = acc * 256 ^ Z.of_nat (length bs) + be_uint bs.
Proof.
  revert acc. induction bs as [|b bs IH]; intros acc Hacc; simpl foldl.
  - simpl. lia.
  - pose proof (byte_val_range b) as Hb.
    rewrite lor_shiftl_byte by lia. rewrite IH by lia.
    simpl be_uint. simpl length. rewrite Nat2Z.inj_succ, Z.pow_succ_r by lia. ring.
Qed.

Lemma unpack_be_be_uint (bs : list byte) : unpack_be bs = be_uint bs.
Proof.
  unfold unpack_be. rewrite unpack_be_acc by lia. lia.
Qed.

(** ** Rounding *)

Lemma round_out_round_up8 (h : Z) :
  (if decide (h `mod` 8 ≠ 0) then h + (8 - h `mod` 8) else h) = round_up8 h.
Proof.
  unfold round_up8.
  pose proof (Z.div_mod h 8 ltac:(lia)) as Hdm.
  pose proof (Z.mod_pos_bound h 8 ltac:(lia)) as Hm.
  destruct (decide (h `mod` 8 ≠ 0)) as [Hne|Heq].
  - assert ((h + 7) / 8 = h / 8 + 1) as ->; [|lia].
    symmetry. apply (Z.div_unique _ _ _ (h `mod` 8 - 1)); lia.
  - assert ((h + 7) / 8 = h / 8) as ->; [|lia].
    symmetry. apply (Z.div_unique _ _ _ 7); lia.
Qed.

Lemma round_up8_spec (n : Z) :
  round_up8 n `mod` 8 = 0 ∧ n ≤ round_up8 n < n + 8.
Proof.
  unfold round_up8. split.
  - rewrite Z.mul_comm. apply Z.mod_mul. lia.
  - pose proof (Z.div_mod (n + 7) 8 ltac:(lia)).
    pose proof (Z.mod_pos_bound (n + 7) 8 ltac:(lia)). lia.
Qed.

(** ** What get_header_struct_size computes, and where it leaves the cursor *)

Lemma field_Some (data : list byte) (off n : nat) :
  (off + n ≤ length data)%nat → field data off n = Some (take n (drop off data)).
Proof.
  intros H. unfold field. rewrite decide_True; [done|].
  rewrite length_take, length_drop. lia.
Qed.

Lemma field_length (data : list byte) (off n : nat) (bs : list byte) :
  field data off n = Some bs → length bs = n ∧ bs = take n (drop off data).
Proof.
  unfold field. case_decide; [|done]. intros [= <-]. done.
Qed.

Lemma get_header_struct_size_run (f : file) :
  get_header_struct_size f =
  let p := (pos f + 8)%nat in
  let header_index := take 4 (drop p (content f)) in
  let p1 := (p + length header_index)%nat in
  match struct_unpack_I header_index with
  | Raise e => (Raise e, mkfile (content f) p1)
  | Ok iv =>
      let header_store := take 4 (drop p1 (content f)) in
      let p2 := (p1 + length header_store)%nat in
      match struct_unpack_I header_store with
      | Raise e => (Raise e, mkfile (content f) p2)
      | Ok sv => (Ok (round_up8 (raw_size iv sv)), mkfile (content f) p2)
      end
  end.
Proof.
  unfold get_header_struct_size, mbind, file_bind, seek_cur, read, flift, mret, file_ret.
  cbn [content pos].
  replace (Z.to_nat (Z.of_nat (pos f) + 8)) with (pos f + 8)%nat by lia.
  cbv zeta.
  destruct (struct_unpack_I (take 4 (drop (pos f + 8) (content f)))) as [iv|e]; [|done].
  destruct (struct_unpack_I _) as [sv|e]; [|done].
  rewrite round_out_round_up8. unfold raw_size. do 3 f_equal; lia.
Qed.

Lemma get_header_struct_size_compute_size (f : file) :
  (get_header_struct_size f).1 = compute_size (content f) (Z.of_nat (pos f)).
Proof.
  rewrite get_header_struct_size_run. unfold compute_size, struct_unpack_I, field.
  rewrite Nat2Z.id. cbv zeta.
  destruct (decide (length (take 4 (drop (pos f + 8) (content f))) = 4%nat)) as [H1|H1];
    [|done].
  rewrite H1. replace (pos f + 8 + 4)%nat with (pos f + 12)%nat by lia.
  destruct (decide (length (take 4 (drop (pos f + 12) (content f))) = 4%nat)) as [H2|H2];
    [|done].
  cbn [fst]. by rewrite !unpack_be_be_uint.
Qed.

Lemma get_header_struct_size_content (f : file) :
  content (get_header_struct_size f).2 = content f.
Proof.
  rewrite get_header_struct_size_run. cbv zeta.
  repeat case_match; reflexivity.
Qed.

Lemma get_header_struct_size_advance (f : file) :
  match (get_header_struct_size f).1 with
  | Ok _ => pos (get_header_struct_size f).2 = (pos f + 16)%nat
  | Raise _ => (pos f + 8 ≤ pos (get_header_struct_size f).2 < pos f + 16)%nat
  end.
Proof.
  rewrite get_header_struct_size_run. cbv zeta. unfold struct_unpack_I.
  pose proof (length_take_le (drop (pos f + 8) (content f)) 4) as Hle1.
  destruct (decide (length (take 4 (drop (pos f + 8) (content f))) = 4%nat)) as [H1|H1].
  - rewrite H1.
    pose proof (length_take_le (drop (pos f + 8 + 4) (content f)) 4) as Hle2.
    destruct (decide (length (take 4 (drop (pos f + 8 + 4) (content f))) = 4%nat))
      as [H2|H2]; cbn [fst snd content pos].
    + lia.
    + rewrite length_take in *. lia.
  - cbn [fst snd content pos]. rewrite length_take in *. lia.
Qed.

Lemma compute_size_of_nat (data : list byte) (position : Z) :
  compute_size data (Z.of_nat (Z.to_nat position)) = compute_size data position.
Proof. unfold compute_size. by rewrite Nat2Z.id. Qed.

(** The absolute seek before each call makes the two sizes depend on the
    content only. *)
Lemma get_header_byte_range_run (f : file) :
  (get_header_byte_range f).1 =
  match compute_size (content f) 96 with
  | Raise e => Raise e
  | Ok sig_size =>
      match compute_size (content f) (96 + sig_size) with
      | Raise e => Raise e
      | Ok header_size => Ok (96 + sig_size, 96 + sig_size + header_size)
      end
  end.
Proof.
  unfold get_header_byte_range, mbind, file_bind, seek_set, mret, file_ret.
  cbn [content pos].
  pose proof (get_header_struct_size_compute_size
                (mkfile (content f) (Z.to_nat lead_size))) as H1.
  pose proof (get_header_struct_size_content
                (mkfile (content f) (Z.to_nat lead_size))) as Hc.
  cbn [content pos] in H1, Hc. rewrite compute_size_of_nat in H1.
  change lead_size with 96 in *.
  destruct (get_header_struct_size (mkfile (content f) (Z.to_nat 96)))
    as [[sig_size|e] f1]; cbn [fst snd] in H1, Hc; rewrite <- H1; [|reflexivity].
  rewrite Hc.
  pose proof (get_header_struct_size_compute_size
                (mkfile (content f) (Z.to_nat (96 + sig_size)))) as H2.
  cbn [content pos] in H2. rewrite compute_size_of_nat in H2.
  destruct (get_header_struct_size _) as [[header_size|e] f2]; cbn [fst] in H2;
    rewrite <- H2; reflexivity.
Qed.

(** C1. For every byte source with at least 16 bytes available at the
    cursor, [get_header_struct_size] returns [16 + 16*index_count +
    store_bytes] rounded up to the next multiple of 8, where [index_count] and
    [store_bytes] are the 4-byte big-endian unsigned integers that follow the
    8 skipped bytes; the result is a multiple of 8. *)
Theorem get_header_struct_size_value (f : file) :
  (pos f + 16 ≤ length (content f))%nat →
  ∃ index_count store_bytes size,
    field (content f) (pos f + 8) 4 = Some index_count ∧
    field (content f) (pos f + 12) 4 = Some store_bytes ∧
    (get_header_struct_size f).1 = Ok size ∧
    let raw := 16 + 16 * be_uint index_count + be_uint store_bytes in
    size = round_up8 raw ∧ size `mod` 8 = 0 ∧ raw ≤ size < raw + 8.
Proof.
  intros Hlen.
  exists (take 4 (drop (pos f + 8) (content f))),
         (take 4 (drop (pos f + 12) (content f))).
  eexists. split; [apply field_Some; lia|]. split; [apply field_Some; lia|].
  rewrite get_header_struct_size_compute_size. unfold compute_size.
  rewrite Nat2Z.id, !field_Some by lia. split; [reflexivity|].
  cbv zeta. unfold raw_size.
  replace (16 + be_uint _ * 16 + be_uint _)
    with (16 + 16 * be_uint (take 4 (drop (pos f + 8) (content f)))
          + be_uint (take 4 (drop (pos f + 12) (content f)))) by lia.
  split; [reflexivity|]. apply round_up8_spec.
Qed.

(** C2. For every byte source, [get_header_byte_range] returns the main
    header region [(96 + sig_size, 96 + sig_size + header_size)], where
    [sig_size] is the size computed at offset 96 and [header_size] the size
    computed at [96 + sig_size]: the signature region starts at 96 and the
    header region starts where the signature region ends. A source too short
    for either preamble makes the call raise. *)
Theorem get_header_byte_range_regions (f : file) :
  match signature_location (content f) with
  | Raise e => (get_header_byte_range f).1 = Raise e
  | Ok (sig_start, sig_end) =>
      sig_start = 96 ∧
      compute_size (content f) 96 = Ok (sig_end - sig_start) ∧
      (get_header_byte_range f).1 =
        (header_size ← compute_size (content f) sig_end;
         mret (sig_end, sig_end + header_size))
  end.
Proof.
  rewrite get_header_byte_range_run. unfold signature_location.
  destruct (compute_size (content f) 96) as [sig_size|e];
    cbn [mbind result_bind mret result_ret]; [|reflexivity].
  split; [reflexivity|]. split; [f_equal; lia|].
  destruct (compute_size (content f) (96 + sig_size)); reflexivity.
Qed.



(** ** Hexadecimal rendering *)

Lemma fmt_02x_byte (b : byte) :
  fmt_02x (byte_val b)
  = String (hex_digit (byte_val b / 16))
      (String (hex_digit (byte_val b `mod` 16)) EmptyString).
Proof. destruct b; reflexivity. Qed.

Lemma hex_digit_byte_lower (b : byte) :
  is_lower_hex (hex_digit (byte_val b / 16)) = true ∧
  is_lower_hex (hex_digit (byte_val b `mod` 16)) = true.
Proof. destruct b; split; reflexivity. Qed.

Lemma fmt_02x_times_bytes (bs : list byte) :
  fmt_02x_times (Z.of_nat (length bs)) (byte_val <$> bs) = Ok (hex_of_bytes bs).
Proof.
  unfold fmt_02x_times. rewrite length_fmap, decide_True by done. f_equal.
  induction bs as [|b bs IH]; [done|].
  cbn [fmap list_fmap foldr hex_of_bytes]. rewrite fmt_02x_byte.
  cbn [String.append]. by rewrite <- IH.
Qed.

Lemma hex_of_bytes_length (bs : list byte) :
  String.length (hex_of_bytes bs) = (2 * length bs)%nat.
Proof.
  induction bs as [|b bs IH]; [done|]. cbn [hex_of_bytes String.length length]. lia.
Qed.

Lemma hex_of_bytes_lower (bs : list byte) : lower_hex_string (hex_of_bytes bs).
Proof.
  unfold lower_hex_string. induction bs as [|b bs IH]; [constructor|].
  cbn [hex_of_bytes list_ascii_of_string].
  destruct (hex_digit_byte_lower b). by repeat constructor.
Qed.

(** ** Slices *)

Lemma bytes_at_past_end (raw : list byte) (lo n : nat) :
  (length raw ≤ lo)%nat → omap (fun i => raw !! i) (seq lo n) = [].
Proof.
  revert lo. induction n as [|n IH]; intros lo Hlo; [done|].
  cbn [seq omap list_omap]. rewrite lookup_ge_None_2 by lia. apply IH. lia.
Qed.

(** The slice of the specification is Python's slice. *)
Lemma bytes_at_slice (raw : list byte) (lo hi : nat) :
  bytes_at raw lo hi = take (hi - lo) (drop lo raw).
Proof.
  unfold bytes_at. generalize (hi - lo)%nat as n. intros n. revert lo.
  induction n as [|n IH]; intros lo; [by rewrite take_0|].
  cbn [seq omap list_omap]. destruct (raw !! lo) as [x|] eqn:Hx.
  - rewrite (drop_S _ _ _ Hx). cbn [take]. f_equal. apply IH.
  - apply lookup_ge_None_1 in Hx. rewrite drop_ge, take_nil by lia.
    apply bytes_at_past_end. lia.
Qed.

(** ** One turn of the loop of _extract_signatures *)

Lemma with_signature_None (self : RPM_Header) : with_signature self None = self.
Proof. destruct self. unfold with_signature. cbn. by rewrite app_nil_r. Qed.

Lemma key_id_of_bytes {A : Type} (b : list byte) (lo hi : nat)
    (k : string → result A) :
  (key_id_len ← py_len (PyBytes (take (hi - lo) (drop lo b)));
   t ← struct_unpack_B key_id_len (PyBytes (take (hi - lo) (drop lo b)));
   key_id ← fmt_02x_times key_id_len t;
   k key_id)
  = k (hex_of_bytes (bytes_at b lo hi)).
Proof.
  cbn [py_len mbind result_bind struct_unpack_B].
  rewrite decide_True by done. cbn [mbind result_bind].
  rewrite fmt_02x_times_bytes. by rewrite bytes_at_slice.
Qed.

(** What one turn does, by the value the header has for the tag. *)
Lemma extract_signature_cases (self : RPM_Header) (tag : Z) (kind : string) :
  extract_signature self (tag, kind) =
  match default PyNone (hdr self !! tag) with
  | PyNone => Ok self
  | PyInt z => if decide (z = 0) then Ok self else Raise TypeError
  | PyStr s => if decide (utf8_length s < 17)%nat then Ok self else Raise TypeError
  | PyBytes b => Ok (with_signature self (signature_of kind (Some b)))
  end.
Proof.
  unfold extract_signature. cbn [hdr_getitem mbind result_bind].
  destruct (default PyNone (hdr self !! tag)) as [|z|b|s]; cbn [py_truthy negb].
  - reflexivity.
  - destruct (decide (z = 0)) as [->|Hz].
    + reflexivity.
    + rewrite bool_decide_true by done. reflexivity.
  - cbn [signature_of]. destruct b as [|b0 b].
    { cbn. by rewrite with_signature_None. }
    rewrite bool_decide_true by done.
    set (raw := b0 :: b).
    cbn [negb py_len mbind result_bind mret result_ret].
    destruct (decide (Z.of_nat (length raw) < 17)) as [Hs|Hs].
    { rewrite decide_False by lia. by rewrite with_signature_None. }
    rewrite (decide_True (P := (17 ≤ length raw)%nat)) by lia. unfold key_id_slice.
    repeat match goal with
    | |- context [decide (Z.of_nat (length raw) ≤ ?k)] =>
        destruct (decide (Z.of_nat (length raw) ≤ k));
        [rewrite (decide_True (P := (length raw ≤ _)%nat)) by lia
        |rewrite (decide_False (P := (length raw ≤ _)%nat)) by lia]
    end.
    all: cbn [py_slice mbind result_bind].
    all: rewrite key_id_of_bytes; reflexivity.
  - destruct s as [|c s].
    { reflexivity. }
    rewrite bool_decide_true by done.
    set (str := String c s).
    cbn [negb py_len mbind result_bind mret result_ret].
    destruct (decide (Z.of_nat (utf8_length str) < 17)) as [Hs|Hs].
    { rewrite (decide_True (P := (utf8_length str < 17)%nat)) by lia. reflexivity. }
    rewrite (decide_False (P := (utf8_length str < 17)%nat)) by lia.
    repeat case_decide; reflexivity.
Qed.

(** ** The loop *)

Lemma py_for_invariant {S X : Type} (P : S → Prop) (body : S → X → result S)
    (xs : list X) (s s' : S) :
  (∀ s x s', P s → body s x = Ok s' → P s') →
  P s → py_for body xs s = Ok s' → P s'.
Proof.
  intros Hbody. revert s. induction xs as [|x xs IH]; intros s Hs; cbn [py_for].
  - by intros [= <-].
  - destruct (body s x) as [s1|e] eqn:Hb; cbn [mbind result_bind]; [|done].
    apply IH. by eapply Hbody.
Qed.

Lemma extract_signature_raw (self : RPM_Header) (tag : Z) (kind : string)
    (raw : option (list byte)) :
  raw_value (hdr self) tag raw →
  extract_signature self (tag, kind)
  = Ok (with_signature self (signature_of kind raw)).
Proof.
  intros Hraw. rewrite extract_signature_cases. unfold raw_value in Hraw.
  rewrite Hraw. destruct raw as [b|]; cbn [fmap option_fmap option_map default].
  - reflexivity.
  - cbn [signature_of]. by rewrite with_signature_None.
Qed.

Lemma extract_signature_hdr (self self' : RPM_Header) (entry : Z * string) :
  extract_signature self entry = Ok self' → hdr self' = hdr self.
Proof.
  destruct entry as [tag kind]. rewrite extract_signature_cases.
  repeat case_match; intros [= <-]; reflexivity.
Qed.

Lemma key_id_slice_length (b : list byte) :
  (17 ≤ length b)%nat →
  length (bytes_at b (key_id_slice (length b)).1 (key_id_slice (length b)).2) = 8%nat.
Proof.
  intros Hlen. rewrite bytes_at_slice, length_take, length_drop.
  unfold key_id_slice. repeat case_decide; cbn [fst snd]; lia.
Qed.

Lemma extract_signature_key_id (self self' : RPM_Header) (entry : Z * string) :
  let good r := String.length (key_id r) = 16%nat ∧ lower_hex_string (key_id r) in
  Forall good (signatures self) →
  extract_signature self entry = Ok self' →
  Forall good (signatures self').
Proof.
  intros good Hall. destruct entry as [tag kind]. rewrite extract_signature_cases.
  destruct (default PyNone (hdr self !! tag)) as [|z|b|s].
  1,2,4: repeat case_decide; intros [= <-]; done.
  intros [= <-]. cbn [with_signature signatures]. apply Forall_app. split; [done|].
  cbn [signature_of]. case_decide as Hlen; [|constructor].
  pose proof (key_id_slice_length b Hlen) as H8.
  destruct (key_id_slice (length b)) as [lo hi]. cbn [fst snd] in H8.
  cbn [option_list]. constructor; [|constructor]. split; cbn [key_id].
  - rewrite hex_of_bytes_length, H8. reflexivity.
  - apply hex_of_bytes_lower.
Qed.

Lemma RPM_Header_init_Ok (has : bool) (h : gmap Z pyval) (is_src : pyval)
    (self : RPM_Header) :
  RPM_Header_init has h is_src = Ok self → has = true ∧ hdr self = h.
Proof.
  unfold RPM_Header_init, _extract_signatures, rpm_RPMTAG_DSAHEADER.
  destruct has; cbn [mbind result_bind]; [|done].
  intros Hfor. split; [done|].
  refine (py_for_invariant (fun s => hdr s = h) _ _ _ _ _ _ Hfor).
  - intros s x s' <-. apply extract_signature_hdr.
  - reflexivity.
Qed.

(** C3. With an rpm module that defines [RPMTAG_DSAHEADER], and raw values
    [dsa], [rsa], [gpg], [pgp] of the four signature tags (each absent or a
    byte string), the constructed object holds exactly the records of
    [signatures_of]: kinds in the order dsa, rsa, gpg, pgp; no record for an
    absent or empty value or one shorter than 17 bytes; otherwise the key id
    is the lowercase hexadecimal rendering, two digits per byte, of the slice
    that [key_id_slice] selects by the length: [9,17) up to 65, [18,26) up to
    72, [10,18) up to 536, [19,27) above. *)
Theorem extract_signatures_by_length (h : gmap Z pyval) (is_src : pyval)
    (dsa rsa gpg pgp : option (list byte)) :
  raw_value h RPMTAG_DSAHEADER dsa →
  raw_value h RPMTAG_RSAHEADER rsa →
  raw_value h RPMTAG_SIGGPG gpg →
  raw_value h RPMTAG_SIGPGP pgp →
  ∃ self, RPM_Header_init true h is_src = Ok self ∧
          signatures self = signatures_of dsa rsa gpg pgp.
Proof.
  intros Hdsa Hrsa Hgpg Hpgp.
  unfold RPM_Header_init, _extract_signatures, rpm_RPMTAG_DSAHEADER.
  cbn [mbind result_bind py_for].
  rewrite (extract_signature_raw _ _ _ dsa) by exact Hdsa. cbn [mbind result_bind].
  rewrite (extract_signature_raw _ _ _ rsa) by exact Hrsa. cbn [mbind result_bind].
  rewrite (extract_signature_raw _ _ _ gpg) by exact Hgpg. cbn [mbind result_bind].
  rewrite (extract_signature_raw _ _ _ pgp) by exact Hpgp. cbn [mbind result_bind].
  eexists. split; [reflexivity|].
  unfold signatures_of, with_signature. cbn [signatures].
  destruct (signature_of "dsa" dsa), (signature_of "rsa" rsa),
    (signature_of "gpg" gpg), (signature_of "pgp" pgp); reflexivity.
Qed.

(** C10. Every record of a constructed object has a key id of exactly 16
    characters, all of them lowercase hexadecimal digits, whatever the header
    holds. *)
Theorem key_id_sixteen_lower_hex (has : bool) (h : gmap Z pyval) (is_src : pyval)
    (self : RPM_Header) :
  RPM_Header_init has h is_src = Ok self →
  Forall (fun r => String.length (key_id r) = 16%nat ∧ lower_hex_string (key_id r))
         (signatures self).
Proof.
  unfold RPM_Header_init, _extract_signatures.
  destruct (rpm_RPMTAG_DSAHEADER has) as [dsa|e]; cbn [mbind result_bind]; [|done].
  intros Hfor.
  refine (py_for_invariant
            (fun s => Forall (fun r => String.length (key_id r) = 16%nat
                                       ∧ lower_hex_string (key_id r))
                             (signatures s))
            _ _ _ _ _ _ Hfor).
  - intros s x s'. apply extract_signature_key_id.
  - constructor.
Qed.

(** ** is_signed *)

Lemma truthy_raw (raw : option (list byte)) :
  py_truthy (default PyNone (PyBytes <$> raw)) = true ↔ nonempty raw.
Proof.
  unfold nonempty. destruct raw as [b|]; cbn.
  - rewrite bool_decide_eq_true. split.
    + intros Hb. by exists b.
    + by intros (b' & [= <-] & Hb).
  - split; [done|]. by intros (b & ? & _).
Qed.

(** C5. On a constructed object, with raw values [gpg], [pgp], [dsa] of the
    three tags, [is_signed] returns 1 or 0, and 1 exactly when one of the
    three is present and non-empty. The RSA tag is not looked at: a header
    with an RSA signature only gives 0. *)
Theorem is_signed_iff (has : bool) (h : gmap Z pyval) (is_src : pyval)
    (self : RPM_Header) (gpg pgp dsa : option (list byte)) :
  raw_value h RPMTAG_SIGGPG gpg →
  raw_value h RPMTAG_SIGPGP pgp →
  raw_value h RPMTAG_DSAHEADER dsa →
  RPM_Header_init has h is_src = Ok self →
  ∃ r, is_signed has self = Ok r ∧ (r = 1 ∨ r = 0) ∧
       (r = 1 ↔ nonempty gpg ∨ nonempty pgp ∨ nonempty dsa).
Proof.
  intros Hgpg Hpgp Hdsa [-> <-]%RPM_Header_init_Ok.
  unfold is_signed, hdr_getitem.
  change (tag_of_name "dsaheader") with (Some RPMTAG_DSAHEADER).
  change (tag_of_name "siggpg") with (Some RPMTAG_SIGGPG).
  change (tag_of_name "sigpgp") with (Some RPMTAG_SIGPGP).
  unfold raw_value in *. rewrite Hgpg, Hpgp, Hdsa. cbn [mbind result_bind mret result_ret].
  pose proof (truthy_raw gpg) as Tg. pose proof (truthy_raw pgp) as Tp.
  pose proof (truthy_raw dsa) as Td.
  destruct (py_truthy (default PyNone (PyBytes <$> gpg)));
    [|destruct (py_truthy (default PyNone (PyBytes <$> pgp)));
      [|destruct (py_truthy (default PyNone (PyBytes <$> dsa)))]].
  all: eexists; split; [reflexivity|]; split; [auto|].
  - split; [intros _; left; by apply Tg|done].
  - split; [intros _; right; left; by apply Tp|done].
  - split; [intros _; right; right; by apply Td|done].
  - split; [done|]. intros [Hn|[Hn|Hn]]; [apply Tg in Hn|apply Tp in Hn|apply Td in Hn]; done.
Qed.

(** ** checksum_type *)

(** What [checksum_type] returns, by the value of the digest algorithm tag.
    The table is never consulted with an integer: the test calls [decode] on
    the value first. *)
Lemma checksum_type_cases (utf8_decode : list byte → option string)
    (self : RPM_Header) :
  checksum_type utf8_decode self =
  match default PyNone (hdr self !! RPMTAG_FILEDIGESTALGO) with
  | PyNone => Ok "md5"%string
  | PyInt z => if decide (z = 0) then Ok "md5"%string else Raise AttributeError
  | PyStr s => if decide (s = EmptyString) then Ok "md5"%string else Raise AttributeError
  | PyBytes b =>
      if decide (b = []) then Ok "md5"%string
      else match utf8_decode b with
           | Some _ => Ok "md5"%string
           | None => Raise UnicodeDecodeError
           end
  end.
Proof.
  unfold checksum_type, hdr_getitem. cbn [mbind result_bind].
  destruct (default PyNone (hdr self !! RPMTAG_FILEDIGESTALGO)) as [|z|b|s];
    cbn [py_truthy py_decode mbind result_bind mret result_ret].
  - reflexivity.
  - destruct (decide (z = 0)) as [->|Hz]; [reflexivity|].
    by rewrite bool_decide_true.
  - destruct (decide (b = [])) as [->|Hb]; [reflexivity|].
    rewrite bool_decide_true by done.
    destruct (utf8_decode b); reflexivity.
  - destruct (decide (s = EmptyString)) as [->|Hs]; [reflexivity|].
    by rewrite bool_decide_true.
Qed.

(** C4, on the code. For the digest algorithm 8 the table has sha256, but
    [checksum_type] raises [AttributeError]: the integer has no [decode]. *)
Theorem checksum_type_sha256_raises (utf8_decode : list byte → option string) :
  PGPHASHALGO !! 8 = Some "sha256"%string ∧
  checksum_type utf8_decode sha256_header = Raise AttributeError.
Proof.
  split; [reflexivity|]. rewrite checksum_type_cases. reflexivity.
Qed.

(** ** nvre_compare *)

Lemma build_evr_raises (v r e n : pyval) :
  build_evr [n; v; r; e] = Raise TypeError.
Proof. reflexivity. Qed.

(** C6, on the code. For two tuples with the same name the call raises
    [TypeError], whatever the versions, releases and epochs are and whatever
    rpm's comparison would answer: [build_evr] indexes the iterator that
    [map] returned. *)
Theorem nvre_compare_same_name_raises
    (rpm_labelCompare : pyseq → pyseq → result Z)
    (n v1 r1 e1 v2 r2 e2 : pyval) :
  nvre_compare rpm_labelCompare [n; v1; r1; e1] [n; v2; r2; e2] = Raise TypeError.
Proof.
  unfold nvre_compare. cbn [tuple_getitem lookup list_lookup mbind result_bind].
  rewrite decide_False by (intros H; by apply H).
  rewrite build_evr_raises. reflexivity.
Qed.

(** C7. For two tuples whose names differ the call raises the [ValueError]
    of the name check, whatever rpm's comparison would do: the check comes
    before the two triples are built and compared. *)
Theorem nvre_compare_name_mismatch
    (rpm_labelCompare : pyseq → pyseq → result Z)
    (n1 v1 r1 e1 n2 v2 r2 e2 : pyval) :
  n1 ≠ n2 →
  nvre_compare rpm_labelCompare [n1; v1; r1; e1] [n2; v2; r2; e2]
  = Raise (ValueError "You should only compare packages with the same name").
Proof.
  intros Hne. unfold nvre_compare.
  cbn [tuple_getitem lookup list_lookup mbind result_bind].
  by rewrite decide_True.
Qed.

(** ** The range of the computed size *)

Lemma header_size_of_round_up8 (iv sv : Z) :
  header_size_of iv sv = round_up8 (raw_size iv sv).
Proof.
  unfold header_size_of. cbv zeta. rewrite round_out_round_up8.
  unfold raw_size. f_equal; lia.
Qed.

(** [get_header_struct_size] returns [header_size_of] of the two values it
    decodes. *)
Lemma get_header_struct_size_header_size_of (f : file) :
  (get_header_struct_size f).1 =
  (iv ← struct_unpack_I (take 4 (drop (pos f + 8) (content f)));
   sv ← struct_unpack_I
          (take 4 (drop (pos f + 8 + length (take 4 (drop (pos f + 8) (content f))))
                        (content f)));
   mret (header_size_of iv sv)).
Proof.
  rewrite get_header_struct_size_run. cbv zeta.
  destruct (struct_unpack_I (take 4 (drop (pos f + 8) (content f)))) as [iv|e];
    cbn [mbind result_bind]; [|reflexivity].
  destruct (struct_unpack_I _) as [sv|e]; cbn [mbind result_bind fst]; [|reflexivity].
  by rewrite header_size_of_round_up8.
Qed.

(** X17. The two values are decoded from 4 bytes each, so a returned size is
    at least 16 and at most 73014444032: it stays far below [2^64], and no
    source is rejected for its size. The only exception the call raises is
    [struct.error], on a source too short for a field. *)
Theorem get_header_struct_size_bounded (f : file) :
  match (get_header_struct_size f).1 with
  | Ok size => 16 ≤ size ≤ 73014444032 ∧ size < 2 ^ 64
  | Raise e => e = StructError
  end.
Proof.
  rewrite get_header_struct_size_compute_size. unfold compute_size.
  destruct (field _ _ 4) as [ic|] eqn:Hic; [|reflexivity].
  destruct (field _ (_ + 12) 4) as [sb|] eqn:Hsb; [|reflexivity].
  apply field_length in Hic as [Lic _]. apply field_length in Hsb as [Lsb _].
  pose proof (be_uint_range ic) as Ric. pose proof (be_uint_range sb) as Rsb.
  rewrite Lic in Ric. rewrite Lsb in Rsb.
  change (256 ^ Z.of_nat 4) with 4294967296 in *.
  pose proof (round_up8_spec (raw_size (be_uint ic) (be_uint sb))) as [Hm Hr].
  unfold raw_size in *.
  set (size := round_up8 _) in *.
  change (2 ^ 64) with 18446744073709551616.
  pose proof (Z.div_mod size 8 ltac:(lia)) as Hdm. rewrite Hm in Hdm.
  lia.
Qed.

(** ** The theorems at sample inputs *)

Lemma get_header_struct_size_value_sample :
  (pos sample_preamble + 16 ≤ length (content sample_preamble))%nat ∧
  ∃ index_count store_bytes size,
    field (content sample_preamble) (pos sample_preamble + 8) 4 = Some index_count ∧
    field (content sample_preamble) (pos sample_preamble + 12) 4 = Some store_bytes ∧
    (get_header_struct_size sample_preamble).1 = Ok size ∧
    let raw := 16 + 16 * be_uint index_count + be_uint store_bytes in
    size = round_up8 raw ∧ size `mod` 8 = 0 ∧ raw ≤ size < raw + 8.
Proof.
  split; [simpl; lia|].
  apply (get_header_struct_size_value sample_preamble). simpl. lia.
Defined.

Lemma extract_signatures_by_length_sample :
  ∃ self, RPM_Header_init true dsa_pgp_hdr PyNone = Ok self ∧
          signatures self
          = signatures_of (Some sample_raw17) None None (Some (replicate 66 Byte.xab)).
Proof.
  apply (extract_signatures_by_length dsa_pgp_hdr PyNone
           (Some sample_raw17) None None (Some (replicate 66 Byte.xab)));
    vm_compute; reflexivity.
Defined.

Lemma key_id_sixteen_lower_hex_sample :
  RPM_Header_init true dsa_pgp_hdr PyNone = Ok dsa_pgp_header ∧
  Forall (fun r => String.length (key_id r) = 16%nat ∧ lower_hex_string (key_id r))
         (signatures dsa_pgp_header).
Proof.
  split; [vm_compute; reflexivity|].
  apply (key_id_sixteen_lower_hex true dsa_pgp_hdr PyNone dsa_pgp_header).
  vm_compute. reflexivity.
Defined.

Lemma is_signed_iff_rsa_only :
  RPM_Header_init true rsa_only_hdr PyNone = Ok rsa_only_header ∧
  ∃ r, is_signed true rsa_only_header = Ok r ∧ (r = 1 ∨ r = 0) ∧
       (r = 1 ↔ nonempty None ∨ nonempty None ∨ nonempty None).
Proof.
  split; [vm_compute; reflexivity|].
  apply (is_signed_iff true rsa_only_hdr PyNone rsa_only_header None None None);
    vm_compute; reflexivity.
Defined.

Lemma nvre_compare_name_mismatch_foo_bar :
  PyStr "foo" ≠ PyStr "bar" ∧
  nvre_compare (fun _ _ => Ok 0) foo_1_0 bar_1_0
  = Raise (ValueError "You should only compare packages with the same name").
Proof.
  split; [discriminate|].
  apply (nvre_compare_name_mismatch (fun _ _ => Ok 0)). discriminate.
Defined.

(** ** Test vectors of the specification *)

Example header_size_of_rounding :
  header_size_of 1 0 = 32 ∧ header_size_of 1 1 = 40 ∧ header_size_of 1 7 = 40 ∧
  header_size_of 1 8 = 40 ∧ header_size_of 1 9 = 48.
Proof. repeat split; reflexivity. Qed.

Example sample_preamble_size : (get_header_struct_size sample_preamble).1 = Ok 48.
Proof. vm_compute. reflexivity. Qed.

Example key_id_slice_boundaries :
  key_id_slice 17 = (9, 17)%nat ∧ key_id_slice 65 = (9, 17)%nat ∧
  key_id_slice 66 = (18, 26)%nat ∧ key_id_slice 72 = (18, 26)%nat ∧
  key_id_slice 73 = (10, 18)%nat ∧ key_id_slice 536 = (10, 18)%nat ∧
  key_id_slice 537 = (19, 27)%nat.
Proof. repeat split; reflexivity. Qed.

Example sixteen_bytes_no_record :
  signature_of "dsa" (Some (replicate 16 Byte.xab)) = None.
Proof. reflexivity. Qed.

Example seventeen_bytes_dsa_record :
  signature_of "dsa" (Some sample_raw17)
  = Some (mksig "dsa" "090a0b0c0d0e0f10" (PyBytes sample_raw17)).
Proof. reflexivity. Qed.

Example rsa_only_not_signed : is_signed true rsa_only_header = Ok 0.
Proof. vm_compute. reflexivity. Qed.

Example dsa_pgp_signed : is_signed true dsa_pgp_header = Ok 1.
Proof. vm_compute. reflexivity. Qed.

Example checksum_type_missing (utf8_decode : list byte → option string) :
  checksum_type utf8_decode rsa_only_header = Ok "md5"%string.
Proof. rewrite checksum_type_cases. reflexivity. Qed.

Example checksum_type_zero (utf8_decode : list byte → option string) :
  checksum_type utf8_decode
    (mkhdr {[ RPMTAG_FILEDIGESTALGO := PyInt 0 ]} PyNone "rpm" [])
  = Ok "md5"%string.
Proof. rewrite checksum_type_cases. reflexivity. Qed.

Example checksum_type_unmapped (utf8_decode : list byte → option string) :
  checksum_type utf8_decode
    (mkhdr {[ RPMTAG_FILEDIGESTALGO := PyInt 4 ]} PyNone "rpm" [])
  = Raise AttributeError ∧
  checksum_type utf8_decode
    (mkhdr {[ RPMTAG_FILEDIGESTALGO := PyInt 11 ]} PyNone "rpm" [])
  = Raise AttributeError.
Proof. rewrite !checksum_type_cases. split; reflexivity. Qed.

(** * Further properties *)

(** ** When the size computation returns, and what it reads *)

Lemma field_None (data : list byte) (off n : nat) :
  (0 < n)%nat → (length data < off + n)%nat → field data off n = None.
Proof.
  intros Hn H. unfold field. rewrite decide_False; [done|].
  rewrite length_take, length_drop. lia.
Qed.

Lemma compute_size_Ok_iff (data : list byte) (p : nat) :
  (∃ size, compute_size data (Z.of_nat p) = Ok size) ↔ (p + 16 ≤ length data)%nat.
Proof.
  unfold compute_size. rewrite Nat2Z.id. split.
  - intros [size Hs]. destruct (decide (p + 16 ≤ length data)%nat) as [|Hn]; [done|].
    rewrite (field_None data (p + 12) 4) in Hs by lia.
    by destruct (field data (p + 8) 4).
  - intros Hlen. rewrite !field_Some by lia. eauto.
Qed.

Lemma compute_size_Raise (data : list byte) (position : Z) (e : exn) :
  compute_size data position = Raise e → e = StructError.
Proof. unfold compute_size. repeat case_match; congruence. Qed.

(** X1. [get_header_struct_size] returns exactly when the source has 16 bytes
    from the cursor on; otherwise it raises [struct.error]. *)
Theorem get_header_struct_size_returns_iff (f : file) :
  ((∃ size, (get_header_struct_size f).1 = Ok size)
   ↔ (pos f + 16 ≤ length (content f))%nat) ∧
  ((get_header_struct_size f).1 = Raise StructError
   ↔ (length (content f) < pos f + 16)%nat).
Proof.
  rewrite get_header_struct_size_compute_size.
  pose proof (compute_size_Ok_iff (content f) (pos f)) as Hiff.
  split; [exact Hiff|]. split.
  - intros Hr. destruct (decide (pos f + 16 ≤ length (content f))%nat) as [Hle|]; [|lia].
    apply Hiff in Hle as [size Hs]. congruence.
  - intros Hlt. destruct (compute_size _ _) as [size|e] eqn:Hc.
    + assert (pos f + 16 ≤ length (content f))%nat by (apply Hiff; eauto). lia.
    + by rewrite (compute_size_Raise _ _ _ Hc).
Qed.

Lemma compute_size_window (data : list byte) (p : nat) :
  compute_size data (Z.of_nat p)
  = compute_size (replicate 8 Byte.x00 ++ take 8 (drop (p + 8) data)) 0.
Proof.
  unfold compute_size, field. rewrite Nat2Z.id. change (Z.to_nat 0) with 0%nat.
  cbn [Nat.add].
  rewrite (drop_app_length' (replicate 8 Byte.x00)) by done.
  rewrite (drop_app_ge (replicate 8 Byte.x00)) by (rewrite length_replicate; lia).
  rewrite length_replicate. change (12 - 8)%nat with 4%nat.
  assert (take 4 (drop (p + 8) data) = take 4 (take 8 (drop (p + 8) data))) as <-.
  { by rewrite take_take. }
  assert (take 4 (drop (p + 12) data) = take 4 (drop 4 (take 8 (drop (p + 8) data)))) as <-.
  { change (take 8 (drop (p + 8) data)) with (take (4 + 4) (drop (p + 8) data)).
    rewrite <- take_drop_commute, drop_drop, take_take. cbn [Nat.min].
    do 2 f_equal; lia. }
  reflexivity.
Qed.

(** X2. The result of [get_header_struct_size] depends on nothing but the
    eight bytes of the two fields: two sources that agree on the bytes at
    [pos + 8, pos + 16) give the same size or both raise. The eight bytes
    before them, where the magic number of a header lives, are never looked
    at. *)
Theorem get_header_struct_size_reads_fields_only (f g : file) :
  take 8 (drop (pos f + 8) (content f)) = take 8 (drop (pos g + 8) (content g)) →
  (get_header_struct_size f).1 = (get_header_struct_size g).1.
Proof.
  intros Heq. rewrite !get_header_struct_size_compute_size, !compute_size_window.
  by rewrite Heq.
Qed.

(** X16. After a call that returned, a second call reads the preamble that
    lies 16 bytes after the first one, wherever the first structure ends. *)
Theorem get_header_struct_size_twice (f : file) (size : Z) :
  (get_header_struct_size f).1 = Ok size →
  (get_header_struct_size (get_header_struct_size f).2).1
  = compute_size (content f) (Z.of_nat (pos f) + 16).
Proof.
  intros Hs. rewrite get_header_struct_size_compute_size.
  rewrite get_header_struct_size_content.
  pose proof (get_header_struct_size_advance f) as Hadv. rewrite Hs in Hadv.
  rewrite Hadv. f_equal. lia.
Qed.

(** ** The byte range *)

Lemma get_header_byte_range_state (f : file) :
  content (get_header_byte_range f).2 = content f ∧
  match (get_header_byte_range f).1 with
  | Ok (header_start, _) =>
      pos (get_header_byte_range f).2 = (Z.to_nat header_start + 16)%nat
  | Raise _ => True
  end.
Proof.
  unfold get_header_byte_range, mbind, file_bind, seek_set, mret, file_ret.
  cbn [content pos].
  pose proof (get_header_struct_size_content
                (mkfile (content f) (Z.to_nat lead_size))) as Hc.
  cbn [content] in Hc.
  destruct (get_header_struct_size (mkfile (content f) (Z.to_nat lead_size)))
    as [[sig_size|e] f1]; cbn [fst snd] in Hc |- *; [|done].
  pose proof (get_header_struct_size_content
                (mkfile (content f1) (Z.to_nat (lead_size + sig_size)))) as Hc2.
  pose proof (get_header_struct_size_advance
                (mkfile (content f1) (Z.to_nat (lead_size + sig_size)))) as Ha2.
  cbn [content pos] in Hc2, Ha2.
  destruct (get_header_struct_size _) as [[header_size|e] f2];
    cbn [fst snd] in Hc2, Ha2 |- *; (split; [congruence|first [exact Ha2|exact I]]).
Qed.

(** X3. [get_header_byte_range] starts with an absolute seek: its result does
    not depend on where the cursor was, and the content of the source is the
    same after the call. *)
Theorem get_header_byte_range_any_cursor (f : file) (p : nat) :
  (get_header_byte_range (mkfile (content f) p)).1 = (get_header_byte_range f).1 ∧
  content (get_header_byte_range f).2 = content f.
Proof.
  split; [by rewrite !get_header_byte_range_run|].
  apply get_header_byte_range_state.
Qed.

Lemma compute_size_aligned (data : list byte) (position size : Z) :
  compute_size data position = Ok size → size `mod` 8 = 0 ∧ 16 ≤ size.
Proof.
  unfold compute_size.
  destruct (field _ _ 4) as [ic|]; [|done]. destruct (field _ _ 4) as [sb|]; [|done].
  intros [= <-].
  pose proof (be_uint_range ic). pose proof (be_uint_range sb).
  pose proof (round_up8_spec (raw_size (be_uint ic) (be_uint sb))) as [Hm Hr].
  unfold raw_size in *. split; [done|lia].
Qed.

(** X4. A returned byte range is 8-byte aligned at both ends, starts at 112
    or later and spans at least the 16 bytes of a preamble, which the source
    has; the cursor is left right after that preamble. *)
Theorem get_header_byte_range_aligned (f : file) (header_start header_end : Z) :
  (get_header_byte_range f).1 = Ok (header_start, header_end) →
  header_start `mod` 8 = 0 ∧ header_end `mod` 8 = 0 ∧
  112 ≤ header_start ∧ header_start + 16 ≤ header_end ∧
  header_start + 16 ≤ Z.of_nat (length (content f)) ∧
  Z.of_nat (pos (get_header_byte_range f).2) = header_start + 16.
Proof.
  intros Hr. pose proof (get_header_byte_range_state f) as [_ Hpos].
  rewrite Hr in Hpos. rewrite get_header_byte_range_run in Hr.
  destruct (compute_size (content f) 96) as [sig_size|] eqn:H1; [|done].
  destruct (compute_size (content f) (96 + sig_size)) as [header_size|] eqn:H2; [|done].
  injection Hr as <- <-.
  apply compute_size_aligned in H1 as [Hm1 Hl1].
  pose proof H2 as H2'. apply compute_size_aligned in H2' as [Hm2 Hl2].
  assert (Z.of_nat (Z.to_nat (96 + sig_size)) + 16 ≤ Z.of_nat (length (content f))) as Hlen.
  { assert (Z.to_nat (96 + sig_size) + 16 ≤ length (content f))%nat; [|lia].
    apply compute_size_Ok_iff. rewrite compute_size_of_nat. eauto. }
  repeat split; try lia.
  - rewrite Z.add_mod, Hm1 by lia. reflexivity.
  - rewrite Z.add_mod, (Z.add_mod 96), Hm1, Hm2 by lia. reflexivity.
Qed.

(** X5. [get_header_byte_range] needs the two preambles and nothing else. A
    source shorter than 112 bytes makes it raise [struct.error]; otherwise it
    returns exactly when the 16 bytes at [96 + sig_size] are there, and
    raises [struct.error] when they are not. Whether the source reaches the
    returned end is not looked at. *)
Theorem get_header_byte_range_returns_iff (f : file) :
  match compute_size (content f) 96 with
  | Raise _ =>
      (length (content f) < 112)%nat ∧
      (get_header_byte_range f).1 = Raise StructError
  | Ok sig_size =>
      (112 ≤ length (content f))%nat ∧
      if decide (96 + sig_size + 16 ≤ Z.of_nat (length (content f)))
      then ∃ header_size,
             (get_header_byte_range f).1
             = Ok (96 + sig_size, 96 + sig_size + header_size)
      else (get_header_byte_range f).1 = Raise StructError
  end.
Proof.
  rewrite get_header_byte_range_run.
  pose proof (compute_size_Ok_iff (content f) 96) as H96.
  change (Z.of_nat 96) with 96 in H96.
  destruct (compute_size (content f) 96) as [sig_size|e] eqn:H1.
  - assert (96 + 16 ≤ length (content f))%nat as Hlen by (apply H96; eauto).
    split; [lia|].
    apply compute_size_aligned in H1 as [_ Hl1].
    pose proof (compute_size_Ok_iff (content f) (Z.to_nat (96 + sig_size))) as H2.
    rewrite compute_size_of_nat in H2.
    destruct (decide (96 + sig_size + 16 ≤ Z.of_nat (length (content f)))) as [Hle|Hgt].
    + destruct H2 as [_ H2]. destruct H2 as [header_size ->]; [lia|]. eauto.
    + destruct (compute_size (content f) (96 + sig_size)) as [header_size|e] eqn:Hc.
      * destruct H2 as [H2 _]. specialize (H2 (ex_intro _ _ eq_refl)). lia.
      * by rewrite (compute_size_Raise _ _ _ Hc).
  - split.
    + destruct (decide (96 + 16 ≤ length (content f))%nat) as [Hle|]; [|lia].
      apply H96 in Hle as [? ?]. congruence.
    + by rewrite (compute_size_Raise _ _ _ H1).
Qed.

(** ** Construction of an RPM_Header, for any header *)

Lemma extract_signature_value (self : RPM_Header) (tag : Z) (kind : string) :
  extract_signature self (tag, kind) =
  (o ← record_of_value kind (tag_value (hdr self) tag); mret (with_signature self o)).
Proof.
  rewrite extract_signature_cases. unfold tag_value, record_of_value.
  destruct (default PyNone (hdr self !! tag)); repeat case_decide;
    cbn [mbind result_bind mret result_ret]; by rewrite ?with_signature_None.
Qed.

(** The four turns of the loop, one after the other. *)
Lemma RPM_Header_init_run (has : bool) (h : gmap Z pyval) (is_src : pyval) :
  RPM_Header_init has h is_src =
  if has then
    o1 ← record_of_value "dsa" (tag_value h RPMTAG_DSAHEADER);
    o2 ← record_of_value "rsa" (tag_value h RPMTAG_RSAHEADER);
    o3 ← record_of_value "gpg" (tag_value h RPMTAG_SIGGPG);
    o4 ← record_of_value "pgp" (tag_value h RPMTAG_SIGPGP);
    mret (mkhdr h is_src "rpm"
            (option_list o1 ++ option_list o2 ++ option_list o3 ++ option_list o4))
  else Raise AttributeError.
Proof.
  unfold RPM_Header_init, _extract_signatures, rpm_RPMTAG_DSAHEADER.
  destruct has; [|reflexivity]. cbn [mbind result_bind py_for].
  rewrite extract_signature_value. cbn [hdr].
  destruct (record_of_value "dsa" _) as [o1|]; cbn [mbind result_bind mret result_ret];
    [|reflexivity].
  rewrite extract_signature_value. cbn [hdr with_signature].
  destruct (record_of_value "rsa" _) as [o2|]; cbn [mbind result_bind mret result_ret];
    [|reflexivity].
  rewrite extract_signature_value. cbn [hdr with_signature].
  destruct (record_of_value "gpg" _) as [o3|]; cbn [mbind result_bind mret result_ret];
    [|reflexivity].
  rewrite extract_signature_value. cbn [hdr with_signature].
  destruct (record_of_value "pgp" _) as [o4|]; cbn [mbind result_bind mret result_ret];
    [|reflexivity].
  unfold with_signature. cbn [hdr is_source packaging signatures app].
  by rewrite <- !app_assoc.
Qed.

Lemma RPM_Header_init_inv (has : bool) (h : gmap Z pyval) (is_src : pyval)
    (self : RPM_Header) :
  RPM_Header_init has h is_src = Ok self →
  has = true ∧
  ∃ o1 o2 o3 o4,
    record_of_value "dsa" (tag_value h RPMTAG_DSAHEADER) = Ok o1 ∧
    record_of_value "rsa" (tag_value h RPMTAG_RSAHEADER) = Ok o2 ∧
    record_of_value "gpg" (tag_value h RPMTAG_SIGGPG) = Ok o3 ∧
    record_of_value "pgp" (tag_value h RPMTAG_SIGPGP) = Ok o4 ∧
    self = mkhdr h is_src "rpm"
             (option_list o1 ++ option_list o2 ++ option_list o3 ++ option_list o4).
Proof.
  rewrite RPM_Header_init_run. destruct has; [|done]. intros Hrun. split; [done|].
  destruct (record_of_value "dsa" _) as [o1|]; [|done].
  destruct (record_of_value "rsa" _) as [o2|]; [|done].
  destruct (record_of_value "gpg" _) as [o3|]; [|done].
  destruct (record_of_value "pgp" _) as [o4|]; [|done].
  cbn [mbind result_bind mret result_ret] in Hrun. injection Hrun as <-.
  by exists o1, o2, o3, o4.
Qed.

Lemma record_of_value_Some (kind : string) (v : pyval) (r : signature_record) :
  record_of_value kind v = Ok (Some r) →
  ∃ b, v = PyBytes b ∧ (17 ≤ length b)%nat ∧
       r = mksig kind
             (hex_of_bytes (bytes_at b (key_id_slice (length b)).1
                                       (key_id_slice (length b)).2))
             (PyBytes b).
Proof.
  destruct v as [|z|b|s]; cbn [record_of_value]; repeat case_decide; try done.
  intros Hr. exists b. split; [done|].
  unfold signature_of in Hr. case_decide as Hlen; [|done]. split; [done|].
  destruct (key_id_slice (length b)) as [lo hi]. by injection Hr as <-.
Qed.

Lemma record_of_value_header (h : gmap Z pyval) (kind : string) (tag : Z)
    (o : option signature_record) :
  (kind, tag) ∈ signature_tags →
  record_of_value kind (tag_value h tag) = Ok o →
  Forall (fun r => signature_type r = kind ∧ record_of_header h r) (option_list o).
Proof.
  intros Hin Ho. destruct o as [r|]; [|constructor].
  apply record_of_value_Some in Ho as (b & Hv & Hlen & ->).
  constructor; [|constructor]. split; [done|].
  exists tag, b. cbn [signature_type signature key_id].
  repeat split; try done.
  unfold tag_value in Hv. destruct (h !! tag) as [v|]; cbn in Hv; congruence.
Qed.

Lemma RPM_Header_init_records (has : bool) (h : gmap Z pyval) (is_src : pyval)
    (self : RPM_Header) :
  RPM_Header_init has h is_src = Ok self →
  Forall (record_of_header h) (signatures self).
Proof.
  intros (_ & o1 & o2 & o3 & o4 & H1 & H2 & H3 & H4 & ->)%RPM_Header_init_inv.
  cbn [signatures].
  apply (record_of_value_header h "dsa") in H1; [|set_solver].
  apply (record_of_value_header h "rsa") in H2; [|set_solver].
  apply (record_of_value_header h "gpg") in H3; [|set_solver].
  apply (record_of_value_header h "pgp") in H4; [|set_solver].
  rewrite !Forall_app. repeat split; (eapply Forall_impl; [eassumption|]);
    by intros r [_ Hr].
Qed.

(** X6. Construction keeps what it was given: the object that
    [RPM_Header(hdr, is_source)] returns holds that header and that flag, its
    packaging is [rpm], and it has at most four signature records. It returns
    only with an rpm module that defines [RPMTAG_DSAHEADER]. *)
Theorem RPM_Header_init_fields (has : bool) (h : gmap Z pyval) (is_src : pyval)
    (self : RPM_Header) :
  RPM_Header_init has h is_src = Ok self →
  has = true ∧ hdr self = h ∧ is_source self = is_src ∧
  packaging self = "rpm"%string ∧ (length (signatures self) ≤ 4)%nat.
Proof.
  intros (-> & o1 & o2 & o3 & o4 & _ & _ & _ & _ & ->)%RPM_Header_init_inv.
  cbn [hdr is_source packaging signatures]. repeat split.
  rewrite !length_app. destruct o1, o2, o3, o4; cbn; lia.
Qed.

(** X7. The records of a constructed object are those of the header, whatever
    else the header holds. Every record agrees with the header: under the tag
    of the record's kind the header has a byte string of at least 17 bytes,
    the record carries that byte string whole, and its key id is the
    rendering of the slice that the length selects. And every signature tag
    that holds a byte string of at least 17 bytes has its record. *)
Theorem signatures_agree_with_header (has : bool) (h : gmap Z pyval)
    (is_src : pyval) (self : RPM_Header) :
  RPM_Header_init has h is_src = Ok self →
  Forall (record_of_header h) (signatures self) ∧
  ∀ kind tag b,
    (kind, tag) ∈ signature_tags →
    h !! tag = Some (PyBytes b) →
    (17 ≤ length b)%nat →
    ∃ r, r ∈ signatures self ∧ signature_type r = kind ∧ signature r = PyBytes b.
Proof.
  intros Hinit. split; [by eapply RPM_Header_init_records|].
  apply RPM_Header_init_inv in Hinit
    as (_ & o1 & o2 & o3 & o4 & H1 & H2 & H3 & H4 & ->).
  intros kind tag b Hin Hv Hlen. cbn [signatures].
  assert (record_of_value kind (tag_value h tag)
          = Ok (Some (mksig kind
                        (hex_of_bytes (bytes_at b (key_id_slice (length b)).1
                                                  (key_id_slice (length b)).2))
                        (PyBytes b)))) as Hrec.
  { unfold tag_value. rewrite Hv. cbn [default from_option id record_of_value signature_of].
    rewrite decide_True by done. by destruct (key_id_slice (length b)). }
  exists (mksig kind
            (hex_of_bytes (bytes_at b (key_id_slice (length b)).1
                                      (key_id_slice (length b)).2))
            (PyBytes b)).
  split; [|split; reflexivity].
  unfold signature_tags in Hin. rewrite !elem_of_app.
  repeat (apply elem_of_cons in Hin as [[= -> ->]|Hin];
          [rewrite Hrec in *; simplify_eq; cbn [option_list]; set_solver|]).
  by apply elem_of_nil in Hin.
Qed.

(** X9. The kinds of the records of a constructed object are a subsequence of
    dsa, rsa, gpg, pgp, whatever the header holds: each kind at most once, in
    that order. *)
Theorem signature_kinds_in_order (has : bool) (h : gmap Z pyval) (is_src : pyval)
    (self : RPM_Header) :
  RPM_Header_init has h is_src = Ok self →
  sublist (signature_type <$> signatures self) ["dsa"; "rsa"; "gpg"; "pgp"]%string.
Proof.
  intros (_ & o1 & o2 & o3 & o4 & H1 & H2 & H3 & H4 & ->)%RPM_Header_init_inv.
  cbn [signatures].
  assert (∀ kind v o, record_of_value kind v = Ok o →
            signature_type <$> option_list o = [] ∨
            signature_type <$> option_list o = [kind]) as Hkind.
  { intros kind v [r|] Ho; [right|by left].
    by apply record_of_value_Some in Ho as (b & _ & _ & ->). }
  rewrite !fmap_app.
  destruct (Hkind _ _ _ H1) as [->| ->], (Hkind _ _ _ H2) as [->| ->],
    (Hkind _ _ _ H3) as [->| ->], (Hkind _ _ _ H4) as [->| ->]; cbn [app];
    repeat first [apply sublist_nil | apply sublist_skip | apply sublist_cons].
Qed.

(** X10. On a constructed object a record of a kind other than rsa implies
    that [is_signed] returns 1. *)
Theorem signature_implies_signed (has : bool) (h : gmap Z pyval) (is_src : pyval)
    (self : RPM_Header) (r : signature_record) :
  RPM_Header_init has h is_src = Ok self →
  r ∈ signatures self →
  signature_type r ≠ "rsa"%string →
  is_signed has self = Ok 1.
Proof.
  intros Hinit Hr Hkind.
  pose proof (RPM_Header_init_records _ _ _ _ Hinit) as Hall.
  apply RPM_Header_init_Ok in Hinit as [-> <-].
  rewrite Forall_forall in Hall. destruct (Hall r Hr) as (tag & b & Hin & Hv & _ & Hlen & _).
  assert (b ≠ []) as Hb by (intros ->; cbn in Hlen; lia).
  assert (py_truthy (default PyNone (hdr self !! tag)) = true) as Ht.
  { rewrite Hv. cbn. by rewrite bool_decide_true. }
  unfold is_signed, hdr_getitem.
  change (tag_of_name "dsaheader") with (Some RPMTAG_DSAHEADER).
  change (tag_of_name "siggpg") with (Some RPMTAG_SIGGPG).
  change (tag_of_name "sigpgp") with (Some RPMTAG_SIGPGP).
  cbn [mbind result_bind mret result_ret].
  unfold signature_tags in Hin.
  repeat (apply elem_of_cons in Hin as [[= Hk ->]|Hin]; [try done; rewrite Ht|]).
  - by repeat case_match.
  - reflexivity.
  - by repeat case_match.
  - by apply elem_of_nil in Hin.
Qed.

(** ** The key id as a number *)

Lemma hex_byte_to_N (b : byte) (s : string) (acc : N) :
  HexString.Raw.to_N
    (String (hex_digit (byte_val b / 16))
       (String (hex_digit (byte_val b `mod` 16)) s)) acc
  = HexString.Raw.to_N s (acc * 256 + Byte.to_N b)%N.
Proof.
  cbn [HexString.Raw.to_N]. f_equal.
  assert (∃ hi lo,
            HexString.ascii_to_digit (hex_digit (byte_val b / 16)) = Some hi ∧
            HexString.ascii_to_digit (hex_digit (byte_val b `mod` 16)) = Some lo ∧
            Byte.to_N b = (16 * hi + lo)%N) as (hi & lo & -> & -> & ->).
  { destruct b; do 2 eexists; (split; [reflexivity|split; reflexivity]). }
  lia.
Qed.

Lemma hex_of_bytes_to_N (bs : list byte) (acc : N) :
  Z.of_N (HexString.Raw.to_N (hex_of_bytes bs) acc)
  = Z.of_N acc * 256 ^ Z.of_nat (length bs) + be_uint bs.
Proof.
  revert acc. induction bs as [|b bs IH]; intros acc.
  - cbn. lia.
  - cbn [hex_of_bytes]. rewrite hex_byte_to_N, IH. cbn [be_uint length].
    rewrite Nat2Z.inj_succ, Z.pow_succ_r by lia. unfold byte_val. lia.
Qed.

(** X8. The key id of every record of a constructed object, read as a
    hexadecimal numeral, is the big-endian value of the eight bytes of the
    slice selected in the record's raw value; it is below [2^64]. *)
Theorem key_id_is_big_endian_value (has : bool) (h : gmap Z pyval) (is_src : pyval)
    (self : RPM_Header) :
  RPM_Header_init has h is_src = Ok self →
  Forall (fun r =>
            ∃ b, signature r = PyBytes b ∧
                 Z.of_N (HexString.Raw.to_N (key_id r) 0)
                 = be_uint (bytes_at b (key_id_slice (length b)).1
                                       (key_id_slice (length b)).2) ∧
                 Z.of_N (HexString.Raw.to_N (key_id r) 0) < 2 ^ 64)
         (signatures self).
Proof.
  intros Hinit. eapply Forall_impl; [by eapply RPM_Header_init_records|].
  intros r (tag & b & _ & _ & Hsig & Hlen & Hkey). exists b. split; [done|].
  rewrite Hkey, hex_of_bytes_to_N. split; [lia|].
  pose proof (be_uint_range (bytes_at b (key_id_slice (length b)).1
                                      (key_id_slice (length b)).2)) as Hr.
  rewrite key_id_slice_length in Hr by done.
  change (256 ^ Z.of_nat 8) with (2 ^ 64) in Hr. lia.
Qed.

(** ** checksum_type and nvre_compare, for every input *)

(** X11. Whenever [checksum_type] returns, it returns [md5]: no header makes
    it return another algorithm of the table, and it never raises
    [KeyError]. *)
Theorem checksum_type_only_md5 (utf8_decode : list byte → option string)
    (self : RPM_Header) :
  match checksum_type utf8_decode self with
  | Ok s => s = "md5"%string
  | Raise e => e = AttributeError ∨ e = UnicodeDecodeError
  end.
Proof.
  rewrite checksum_type_cases.
  destruct (default PyNone (hdr self !! RPMTAG_FILEDIGESTALGO)) as [|z|b|s].
  - reflexivity.
  - destruct (decide (z = 0)); [reflexivity|by left].
  - destruct (decide (b = [])); [reflexivity|].
    destruct (utf8_decode b); [reflexivity|by right].
  - destruct (decide (s = EmptyString)); [reflexivity|by left].
Qed.


(** ** hdrLabelCompare *)

Lemma byte_val_inj (x y : byte) : byte_val x = byte_val y → x = y.
Proof.
  unfold byte_val. intros H%N2Z.inj.
  pose proof (Byte.of_to_N x) as Hx. pose proof (Byte.of_to_N y) as Hy.
  rewrite H in Hx. congruence.
Qed.

(** The order of byte strings is total and asymmetric on distinct strings. *)
Lemma bytes_lt_swap (a b : list byte) :
  a ≠ b → bytes_lt b a = negb (bytes_lt a b).
Proof.
  revert b. induction a as [|x a IH]; intros [|y b] Hne; cbn [bytes_lt]; try done.
  destruct (decide (byte_val x < byte_val y)), (decide (byte_val y < byte_val x));
    try done; try lia.
  apply IH. intros ->. apply Hne. f_equal. apply byte_val_inj. lia.
Qed.

(** X13. For two headers whose names are different byte strings,
    [hdrLabelCompare] returns -1 when the first name comes first in byte
    order and 1 otherwise, without reading versions or asking rpm; with the
    arguments exchanged it returns the opposite. *)
Theorem hdrLabelCompare_names_differ
    (rpm_labelCompare : pyseq → pyseq → result Z)
    (utf8_decode : list byte → option string) (bytes_repr : list byte → string)
    (hdr1 hdr2 : RPM_Header) (name1 name2 : list byte) :
  hdr hdr1 !! RPMTAG_NAME = Some (PyBytes name1) →
  hdr hdr2 !! RPMTAG_NAME = Some (PyBytes name2) →
  name1 ≠ name2 →
  hdrLabelCompare rpm_labelCompare utf8_decode bytes_repr hdr1 hdr2
  = Ok (if bytes_lt name1 name2 then -1 else 1) ∧
  hdrLabelCompare rpm_labelCompare utf8_decode bytes_repr hdr2 hdr1
  = Ok (if bytes_lt name1 name2 then 1 else -1).
Proof.
  intros H1 H2 Hne.
  unfold hdrLabelCompare, RPM_Header_getitem, hdr_getitem. rewrite H1, H2.
  cbn [default from_option id mbind result_bind].
  rewrite !decide_False by congruence. cbn [py_lt mbind result_bind].
  rewrite (bytes_lt_swap name1 name2 Hne).
  destruct (bytes_lt name1 name2); done.
Qed.

Lemma stringify_epoch_label (bytes_repr : list byte → string) (epoch : option Z)
    (v r : pyval) :
  stringify_epoch bytes_repr (PyList [default PyNone (PyInt <$> epoch); v; r])
  = Ok (PyList [epoch_argument epoch; v; r]).
Proof.
  unfold stringify_epoch. destruct epoch as [[|p|p]|]; reflexivity.
Qed.

(** X14. For two headers of the same name whose versions and releases are
    byte strings of valid UTF-8 and whose epochs are integers or absent,
    [hdrLabelCompare] returns what [rpm.labelCompare] answers on the two
    lists (epoch, version, release) with the versions and releases decoded,
    an absent epoch given as [None], the epoch 0 as the integer 0 and any
    other epoch as its decimal text. *)
Theorem hdrLabelCompare_same_name
    (rpm_labelCompare : pyseq → pyseq → result Z)
    (utf8_decode : list byte → option string) (bytes_repr : list byte → string)
    (hdr1 hdr2 : RPM_Header) (e1 e2 : option Z) (v1 r1 v2 r2 : list byte)
    (sv1 sr1 sv2 sr2 : string) :
  hdr hdr1 !! RPMTAG_NAME = hdr hdr2 !! RPMTAG_NAME →
  epoch_value (hdr hdr1) e1 → epoch_value (hdr hdr2) e2 →
  hdr hdr1 !! RPMTAG_VERSION = Some (PyBytes v1) → utf8_decode v1 = Some sv1 →
  hdr hdr1 !! RPMTAG_RELEASE = Some (PyBytes r1) → utf8_decode r1 = Some sr1 →
  hdr hdr2 !! RPMTAG_VERSION = Some (PyBytes v2) → utf8_decode v2 = Some sv2 →
  hdr hdr2 !! RPMTAG_RELEASE = Some (PyBytes r2) → utf8_decode r2 = Some sr2 →
  hdrLabelCompare rpm_labelCompare utf8_decode bytes_repr hdr1 hdr2
  = rpm_labelCompare (PyList [epoch_argument e1; PyStr sv1; PyStr sr1])
                     (PyList [epoch_argument e2; PyStr sv2; PyStr sr2]).
Proof.
  intros Hn He1 He2 Hv1 Hd1 Hr1 Hdr1 Hv2 Hd2 Hr2 Hdr2.
  unfold epoch_value in *.
  unfold hdrLabelCompare, label_of, RPM_Header_getitem, hdr_getitem.
  cbn [mbind result_bind]. rewrite decide_True by (by rewrite Hn).
  rewrite He1, He2, Hv1, Hr1, Hv2, Hr2.
  cbn [default from_option id py_decode mbind result_bind mret result_ret].
  rewrite Hd1, Hdr1, Hd2, Hdr2. cbn [mbind result_bind mret result_ret].
  by rewrite !stringify_epoch_label.
Qed.


(** ** The further properties at sample inputs *)

Lemma get_header_struct_size_reads_fields_only_sample :
  take 8 (drop (pos sample_preamble + 8) (content sample_preamble))
  = take 8 (drop (pos sample_preamble_magic + 8) (content sample_preamble_magic)) ∧
  (get_header_struct_size sample_preamble).1
  = (get_header_struct_size sample_preamble_magic).1.
Proof.
  split; [reflexivity|].
  apply (get_header_struct_size_reads_fields_only sample_preamble sample_preamble_magic).
  reflexivity.
Defined.

Lemma get_header_struct_size_twice_sample :
  (get_header_struct_size two_preambles).1 = Ok 48 ∧
  (get_header_struct_size (get_header_struct_size two_preambles).2).1
  = compute_size (content two_preambles) (Z.of_nat (pos two_preambles) + 16).
Proof.
  split; [vm_compute; reflexivity|].
  apply (get_header_struct_size_twice two_preambles 48). vm_compute. reflexivity.
Defined.

Lemma get_header_byte_range_aligned_sample :
  (get_header_byte_range sample_package).1 = Ok (112, 160) ∧
  112 `mod` 8 = 0 ∧ 160 `mod` 8 = 0 ∧ 112 ≤ 112 ∧ 112 + 16 ≤ 160 ∧
  112 + 16 ≤ Z.of_nat (length (content sample_package)) ∧
  Z.of_nat (pos (get_header_byte_range sample_package).2) = 112 + 16.
Proof.
  split; [vm_compute; reflexivity|].
  apply (get_header_byte_range_aligned sample_package 112 160).
  vm_compute. reflexivity.
Defined.

Lemma RPM_Header_init_fields_sample :
  RPM_Header_init true dsa_pgp_hdr PyNone = Ok dsa_pgp_header ∧
  true = true ∧ hdr dsa_pgp_header = dsa_pgp_hdr ∧ is_source dsa_pgp_header = PyNone ∧
  packaging dsa_pgp_header = "rpm"%string ∧ (length (signatures dsa_pgp_header) ≤ 4)%nat.
Proof.
  split; [vm_compute; reflexivity|].
  apply (RPM_Header_init_fields true dsa_pgp_hdr PyNone dsa_pgp_header).
  vm_compute. reflexivity.
Defined.

Lemma signatures_agree_with_header_sample :
  RPM_Header_init true dsa_pgp_hdr PyNone = Ok dsa_pgp_header ∧
  Forall (record_of_header dsa_pgp_hdr) (signatures dsa_pgp_header) ∧
  ∀ kind tag b,
    (kind, tag) ∈ signature_tags →
    dsa_pgp_hdr !! tag = Some (PyBytes b) →
    (17 ≤ length b)%nat →
    ∃ r, r ∈ signatures dsa_pgp_header ∧ signature_type r = kind
         ∧ signature r = PyBytes b.
Proof.
  split; [vm_compute; reflexivity|].
  apply (signatures_agree_with_header true dsa_pgp_hdr PyNone dsa_pgp_header).
  vm_compute. reflexivity.
Defined.

Lemma signature_kinds_in_order_sample :
  RPM_Header_init true dsa_pgp_hdr PyNone = Ok dsa_pgp_header ∧
  sublist (signature_type <$> signatures dsa_pgp_header)
          ["dsa"; "rsa"; "gpg"; "pgp"]%string.
Proof.
  split; [vm_compute; reflexivity|].
  apply (signature_kinds_in_order true dsa_pgp_hdr PyNone dsa_pgp_header).
  vm_compute. reflexivity.
Defined.

Lemma signature_implies_signed_sample :
  RPM_Header_init true dsa_pgp_hdr PyNone = Ok dsa_pgp_header ∧
  is_signed true dsa_pgp_header = Ok 1.
Proof.
  split; [vm_compute; reflexivity|].
  apply (signature_implies_signed true dsa_pgp_hdr PyNone dsa_pgp_header
           (mksig "dsa" "090a0b0c0d0e0f10" (PyBytes sample_raw17))).
  - vm_compute. reflexivity.
  - simpl. left.
  - simpl. discriminate.
Defined.

Lemma key_id_is_big_endian_value_sample :
  RPM_Header_init true dsa_pgp_hdr PyNone = Ok dsa_pgp_header ∧
  Forall (fun r =>
            ∃ b, signature r = PyBytes b ∧
                 Z.of_N (HexString.Raw.to_N (key_id r) 0)
                 = be_uint (bytes_at b (key_id_slice (length b)).1
                                       (key_id_slice (length b)).2) ∧
                 Z.of_N (HexString.Raw.to_N (key_id r) 0) < 2 ^ 64)
         (signatures dsa_pgp_header).
Proof.
  split; [vm_compute; reflexivity|].
  apply (key_id_is_big_endian_value true dsa_pgp_hdr PyNone dsa_pgp_header).
  vm_compute. reflexivity.
Defined.

Lemma hdrLabelCompare_names_differ_sample :
  [Byte.x61] ≠ [Byte.x62] ∧
  hdrLabelCompare (fun _ _ => Ok 0) ascii_decode (fun _ => EmptyString) pkg_a pkg_b
  = Ok (-1) ∧
  hdrLabelCompare (fun _ _ => Ok 0) ascii_decode (fun _ => EmptyString) pkg_b pkg_a
  = Ok 1.
Proof.
  split; [discriminate|].
  apply (hdrLabelCompare_names_differ (fun _ _ => Ok 0) ascii_decode
           (fun _ => EmptyString) pkg_a pkg_b [Byte.x61] [Byte.x62]).
  - reflexivity.
  - reflexivity.
  - discriminate.
Defined.

Lemma hdrLabelCompare_same_name_sample :
  hdrLabelCompare (fun _ _ => Ok 0) ascii_decode (fun _ => EmptyString) pkg_b pkg_b3
  = (fun _ _ => Ok 0)
      (PyList [epoch_argument (Some 0); PyStr "1"; PyStr "2"])
      (PyList [epoch_argument (Some 3); PyStr "1"; PyStr "2"]).
Proof.
  apply (hdrLabelCompare_same_name (fun _ _ => Ok 0) ascii_decode
           (fun _ => EmptyString) pkg_b pkg_b3 (Some 0) (Some 3)
           [Byte.x31] [Byte.x32] [Byte.x31] [Byte.x32] "1" "2" "1" "2");
    reflexivity.
Defined.


Example sample_package_end_past_file :
  (get_header_byte_range sample_package).1 = Ok (112, 160) ∧
  length (content sample_package) = 128%nat.
Proof. vm_compute. split; reflexivity. Qed.

Example nine_e_acute_length :
  py_len (PyStr nine_e_acute) = Ok 9 ∧ String.length nine_e_acute = 18%nat.
Proof. split; reflexivity. Qed.

Example py_slice_by_characters :
  py_slice (PyStr nine_e_acute) 7 17
  = Ok (PyStr (string_of_list_byte [Byte.xc3; Byte.xa9; Byte.xc3; Byte.xa9])).
Proof. reflexivity. Qed.

Example short_text_under_signature_tag :
  RPM_Header_init true dsa_text_hdr PyNone
  = Ok (mkhdr dsa_text_hdr PyNone "rpm"
          [mksig "dsa" "090a0b0c0d0e0f10" (PyBytes sample_raw17)]).
Proof. vm_compute. reflexivity. Qed.

Example largest_preamble_size :
  (get_header_struct_size largest_preamble).1 = Ok 73014444032.
Proof. vm_compute. reflexivity. Qed.
